(** * Weather-App-Pro: a shallow embedding of [script.js]

    The page script is a single event-driven controller: a module-level
    [state] object, a table of DOM [elements], one asynchronous fetch of the
    current conditions, one of the search suggestions, and a [debounce]
    utility built on the host's timers.  This development embeds the script
    function by function and proves the properties its specification states.

    Conventions of the embedding.
    - A JavaScript string is a sequence of UTF-16 code units.  We represent
      the strings whose code units are all below 256 by [string], one
      [ascii] per code unit, so [String.length] is the script's [.length].
    - A JavaScript number is represented by the rational it denotes ([Q]).
    - What the script leaves to the browser (number and date formatting) is
      a field of the [Host] class.
    - [localStorage] is a finite map from keys to values; whether a write
      is accepted or throws (quota, storage disabled) is the host's to say.
      A class list is a finite set of class names. *)

From Stdlib Require Import Ascii String QArith Qround Lqa.
From stdpp Require Import base strings pretty gmap list.

Local Open Scope string_scope.
Local Open Scope nat_scope.

(** ** Strings as the script sees them *)

Definition dquote : ascii := ascii_of_nat 34.

(** [String.prototype.trim] removes white space and line terminators from
    both ends.  Among the code units below 256 these are TAB, LF, VT, FF,
    CR, SP and NBSP. *)
Definition is_white_space (c : ascii) : bool :=
  let n := nat_of_ascii c in
  (n =? 9) || (n =? 10) || (n =? 11) || (n =? 12) || (n =? 13) ||
  (n =? 32) || (n =? 160).

Fixpoint trimStart (s : string) : string :=
  match s with
  | String c r => if is_white_space c then trimStart r else s
  | EmptyString => EmptyString
  end.

Fixpoint trimEnd (s : string) : string :=
  match s with
  | String c r =>
      match trimEnd r with
      | EmptyString => if is_white_space c then EmptyString else String c EmptyString
      | r' => String c r'
      end
  | EmptyString => EmptyString
  end.

Definition trim (s : string) : string := trimEnd (trimStart s).

(** JavaScript truthiness of a string: only the empty string is falsy. *)
Definition truthy (s : string) : bool :=
  match s with EmptyString => false | String _ _ => true end.

(** [a || d] where [a] is a string that may be [undefined] or [null]. *)
Definition or_else (a : option string) (d : string) : string :=
  match a with
  | Some s => if truthy s then s else d
  | None => d
  end.

(** [encodeURIComponent]: the unreserved characters are kept, every other
    code unit is written as the percent-escaped bytes of its UTF-8
    encoding (one byte below 128, two bytes from 128 to 255). *)
Definition is_uri_unreserved (c : ascii) : bool :=
  let n := nat_of_ascii c in
  ((65 <=? n) && (n <=? 90)) || ((97 <=? n) && (n <=? 122)) ||
  ((48 <=? n) && (n <=? 57)) ||
  (n =? 45) || (n =? 95) || (n =? 46) || (n =? 33) || (n =? 126) ||
  (n =? 42) || (n =? 39) || (n =? 40) || (n =? 41).

Definition hex_digit (n : nat) : ascii :=
  if n <? 10 then ascii_of_nat (48 + n) else ascii_of_nat (55 + n).

Definition percent_byte (b : nat) : string :=
  String "%" (String (hex_digit (b / 16)) (String (hex_digit (b mod 16)) EmptyString)).

Definition encode_unit (c : ascii) : string :=
  let n := nat_of_ascii c in
  if is_uri_unreserved c then String c EmptyString
  else if n <? 128 then percent_byte n
  else percent_byte (192 + n / 64) +:+ percent_byte (128 + n mod 64).

Fixpoint encodeURIComponent (s : string) : string :=
  match s with
  | String c r => encode_unit c +:+ encodeURIComponent r
  | EmptyString => EmptyString
  end.

(** The scheme of an absolute URL as the URL parser reads it: an ASCII
    letter, then letters, digits, [+], [-] or [.] up to the first colon,
    lower-cased.  An input without such a prefix has no scheme. *)
Definition is_ascii_alpha (c : ascii) : bool :=
  let n := nat_of_ascii c in
  ((65 <=? n) && (n <=? 90)) || ((97 <=? n) && (n <=? 122)).

Definition is_scheme_char (c : ascii) : bool :=
  let n := nat_of_ascii c in
  is_ascii_alpha c || ((48 <=? n) && (n <=? 57)) || (n =? 43) || (n =? 45) || (n =? 46).

Definition ascii_lower (c : ascii) : ascii :=
  let n := nat_of_ascii c in
  if (65 <=? n) && (n <=? 90) then ascii_of_nat (n + 32) else c.

Fixpoint scheme_rest (s : string) : option string :=
  match s with
  | EmptyString => None
  | String c r =>
      if bool_decide (c = ":"%char) then Some EmptyString
      else if is_scheme_char c then
        match scheme_rest r with
        | Some t => Some (String (ascii_lower c) t)
        | None => None
        end
      else None
  end.

Definition url_scheme (url : string) : option string :=
  match url with
  | String c _ => if is_ascii_alpha c then scheme_rest url else None
  | EmptyString => None
  end.

(** Reading one escaped code unit back from the front of a string: the
    inverse of [encode_unit], used to tell encoded queries apart. *)
Definition hex_value (c : ascii) : option nat :=
  let n := nat_of_ascii c in
  if (48 <=? n) && (n <=? 57) then Some (n - 48)
  else if (65 <=? n) && (n <=? 70) then Some (n - 55)
  else None.

Definition read_percent_byte (s : string) : option (nat * string) :=
  match s with
  | String p (String h (String l r)) =>
      if bool_decide (p = "%"%char) then
        match hex_value h, hex_value l with
        | Some hv, Some lv => Some (16 * hv + lv, r)
        | _, _ => None
        end
      else None
  | _ => None
  end.

Definition decode_unit (s : string) : option (ascii * string) :=
  match s with
  | EmptyString => None
  | String c r =>
      if is_uri_unreserved c then Some (c, r)
      else
        match read_percent_byte s with
        | Some (b, r1) =>
            if b <? 128 then Some (ascii_of_nat b, r1)
            else
              match read_percent_byte r1 with
              | Some (b2, r2) => Some (ascii_of_nat ((b - 192) * 64 + (b2 - 128)), r2)
              | None => None
              end
        | None => None
        end
  end.

(** The characters an encoded component is made of: the unreserved ones
    and the percent sign of the escapes (whose hexadecimal digits are
    unreserved themselves). *)
Definition is_component_char (c : ascii) : bool :=
  is_uri_unreserved c || bool_decide (c = "%"%char).

(** ** Numbers *)

(** [Math.round]: the nearest integer, ties towards plus infinity. *)
Definition Math_round (x : Q) : Z := Qfloor (x + (1 # 2))%Q.

(** [!x] for a number: zero is the only falsy rational. *)
Definition number_not (x : Q) : bool := Qeq_bool x 0.

(** ** The browser *)

(** A thrown value: every error the script meets is used through its
    [message] only. *)
Inductive JsError := Error (message : string).

Definition message (e : JsError) : string :=
  match e with Error m => m end.

(** What the script delegates to the host: the string form of a number
    (template literals, [textContent] of a number), the locale-dependent
    formatting of [new Date(localtime)] under the two option objects of
    [updateDateTime], the [TypeError]s the engine throws when [null] is
    destructured, when a property of [null] is read and when an object has
    no primitive value, and whether [localStorage.setItem(key, value)] on
    the present storage throws (when the quota is exceeded or storage is
    disabled) and what. *)
Class Host := {
  number_to_string : Q -> string;
  toLocaleTimeString : string -> string;
  toLocaleDateString : string -> string;
  null_type_error : JsError;
  null_member_error : string -> JsError;
  to_primitive_error : JsError;
  setItem_error : gmap string string -> string -> string -> option JsError
}.

(** ** Data model *)

(** Modelled from the spec: the page markup with the [data-unit] attributes
    of the unit buttons is not among the sources; the data model fixes
    [currentUnit] to a two-valued enumeration, written ['c'] and ['f'] in
    the script. *)
Inductive Unit := Celsius | Fahrenheit.

Global Instance Unit_eq_dec : EqDecision Unit.
Proof. solve_decision. Defined.

Definition unit_key (u : Unit) : string :=
  match u with Celsius => "c" | Fahrenheit => "f" end.

Record Location := {
  loc_name : string;
  loc_country : string;
  localtime : string
}.

Record Condition := {
  text : string;
  icon : string
}.

Record Current := {
  temp_c : Q;
  temp_f : Q;
  condition : Condition;
  wind_kph : Q;
  wind_dir : string;
  humidity : Q;
  pressure_mb : Q;
  vis_km : Q;
  is_day : Q
}.

(** The parsed body of a successful current-conditions response. *)
Record WeatherSnapshot := {
  location : Location;
  current : Current
}.

(** [current[`temp_${unit}`]] *)
Definition temp_of (unit : Unit) (c : Current) : Q :=
  match unit with Celsius => temp_c c | Fahrenheit => temp_f c end.

(** The parsed body of a failed response is whatever JSON the service
    sent.  An object lists its members in the order of the text; as in
    [JSON.parse], a later member of the same name overrides an earlier
    one. *)
#[warnings="-register-all"] Inductive JsonValue :=
  | JNull
  | JBool (b : bool)
  | JNumber (x : Q)
  | JString (s : string)
  | JArray (items : list JsonValue)
  | JObject (members : list (string * JsonValue)).

(** The value of member [name] of a parsed object, [None] for [undefined]. *)
Definition member_of (name : string) (members : list (string * JsonValue))
  : option JsonValue :=
  foldl (fun found m => if bool_decide (fst m = name) then Some (snd m) else found)
        None members.

(** JavaScript truthiness of a parsed value. *)
Definition json_truthy (v : JsonValue) : bool :=
  match v with
  | JNull => false
  | JBool b => b
  | JNumber x => negb (number_not x)
  | JString s => truthy s
  | JArray _ | JObject _ => true
  end.

(** [a || d] where [a] is a parsed value or [undefined] and [d] a string. *)
Definition json_or (a : option JsonValue) (d : string) : JsonValue :=
  match a with
  | Some v => if json_truthy v then v else JString d
  | None => JString d
  end.

(** [base?.name] for a name no prototype defines: [undefined] when [base]
    is [undefined] or [null], and on every value but an object that has
    the member. *)
Definition optional_member (name : string) (base : option JsonValue)
  : option JsonValue :=
  match base with
  | Some (JObject members) => member_of name members
  | _ => None
  end.

(** One entry of the search endpoint's array. *)
Record SearchSuggestion := {
  sg_name : string;
  sg_country : string
}.

(** The module-level [state] object. *)
Record State := {
  currentUnit : Unit;
  lastLocation : string;
  weatherData : option WeatherSnapshot
}.

(** A unit button: its [data-unit] attribute and its class list. *)
Record UnitButton := {
  dataset_unit : Unit;
  btn_classList : gset string
}.

(** The [elements] table, one field per property the script touches. *)
Record Elements := {
  temperature : string;
  location_text : string;
  time_text : string;
  date_text : string;
  conditionIcon_src : string;
  conditionIcon_alt : string;
  conditionText : string;
  windSpeed : string;
  windDir : string;
  humidity_text : string;
  pressure : string;
  visibility : string;
  searchInput_value : string;
  suggestions_innerHTML : string;
  suggestions_classList : gset string;
  unitButtons : list UnitButton
}.

(** Everything the script can read or write. [network] lists the URLs
    passed to [fetch], oldest first; [console] the [console.error] calls. *)
Record World := {
  state : State;
  elements : Elements;
  body_classList : gset string;
  localStorage : gmap string string;
  network : list string;
  console : list (string * JsError)
}.

(** ** Assignments

    One function per assigned property: [set_f v r] is [r.f = v]. *)

Definition set_currentUnit (v : Unit) (s : State) : State :=
  {| currentUnit := v; lastLocation := lastLocation s;
     weatherData := weatherData s |}.

Definition set_lastLocation (v : string) (s : State) : State :=
  {| currentUnit := currentUnit s; lastLocation := v;
     weatherData := weatherData s |}.

Definition set_weatherData (v : option WeatherSnapshot) (s : State) : State :=
  {| currentUnit := currentUnit s; lastLocation := lastLocation s;
     weatherData := v |}.

Definition set_btn_classList (v : gset string) (b : UnitButton) : UnitButton :=
  {| dataset_unit := dataset_unit b; btn_classList := v |}.

Definition set_temperature (v : string) (e : Elements) : Elements :=
  {| temperature := v; location_text := location_text e;
     time_text := time_text e; date_text := date_text e;
     conditionIcon_src := conditionIcon_src e;
     conditionIcon_alt := conditionIcon_alt e;
     conditionText := conditionText e; windSpeed := windSpeed e;
     windDir := windDir e; humidity_text := humidity_text e;
     pressure := pressure e; visibility := visibility e;
     searchInput_value := searchInput_value e;
     suggestions_innerHTML := suggestions_innerHTML e;
     suggestions_classList := suggestions_classList e;
     unitButtons := unitButtons e |}.

Definition set_location_text (v : string) (e : Elements) : Elements :=
  {| temperature := temperature e; location_text := v;
     time_text := time_text e; date_text := date_text e;
     conditionIcon_src := conditionIcon_src e;
     conditionIcon_alt := conditionIcon_alt e;
     conditionText := conditionText e; windSpeed := windSpeed e;
     windDir := windDir e; humidity_text := humidity_text e;
     pressure := pressure e; visibility := visibility e;
     searchInput_value := searchInput_value e;
     suggestions_innerHTML := suggestions_innerHTML e;
     suggestions_classList := suggestions_classList e;
     unitButtons := unitButtons e |}.

Definition set_time_text (v : string) (e : Elements) : Elements :=
  {| temperature := temperature e; location_text := location_text e;
     time_text := v; date_text := date_text e;
     conditionIcon_src := conditionIcon_src e;
     conditionIcon_alt := conditionIcon_alt e;
     conditionText := conditionText e; windSpeed := windSpeed e;
     windDir := windDir e; humidity_text := humidity_text e;
     pressure := pressure e; visibility := visibility e;
     searchInput_value := searchInput_value e;
     suggestions_innerHTML := suggestions_innerHTML e;
     suggestions_classList := suggestions_classList e;
     unitButtons := unitButtons e |}.

Definition set_date_text (v : string) (e : Elements) : Elements :=
  {| temperature := temperature e; location_text := location_text e;
     time_text := time_text e; date_text := v;
     conditionIcon_src := conditionIcon_src e;
     conditionIcon_alt := conditionIcon_alt e;
     conditionText := conditionText e; windSpeed := windSpeed e;
     windDir := windDir e; humidity_text := humidity_text e;
     pressure := pressure e; visibility := visibility e;
     searchInput_value := searchInput_value e;
     suggestions_innerHTML := suggestions_innerHTML e;
     suggestions_classList := suggestions_classList e;
     unitButtons := unitButtons e |}.

Definition set_conditionIcon_src (v : string) (e : Elements) : Elements :=
  {| temperature := temperature e; location_text := location_text e;
     time_text := time_text e; date_text := date_text e;
     conditionIcon_src := v; conditionIcon_alt := conditionIcon_alt e;
     conditionText := conditionText e; windSpeed := windSpeed e;
     windDir := windDir e; humidity_text := humidity_text e;
     pressure := pressure e; visibility := visibility e;
     searchInput_value := searchInput_value e;
     suggestions_innerHTML := suggestions_innerHTML e;
     suggestions_classList := suggestions_classList e;
     unitButtons := unitButtons e |}.

Definition set_conditionIcon_alt (v : string) (e : Elements) : Elements :=
  {| temperature := temperature e; location_text := location_text e;
     time_text := time_text e; date_text := date_text e;
     conditionIcon_src := conditionIcon_src e; conditionIcon_alt := v;
     conditionText := conditionText e; windSpeed := windSpeed e;
     windDir := windDir e; humidity_text := humidity_text e;
     pressure := pressure e; visibility := visibility e;
     searchInput_value := searchInput_value e;
     suggestions_innerHTML := suggestions_innerHTML e;
     suggestions_classList := suggestions_classList e;
     unitButtons := unitButtons e |}.

Definition set_conditionText (v : string) (e : Elements) : Elements :=
  {| temperature := temperature e; location_text := location_text e;
     time_text := time_text e; date_text := date_text e;
     conditionIcon_src := conditionIcon_src e;
     conditionIcon_alt := conditionIcon_alt e; conditionText := v;
     windSpeed := windSpeed e; windDir := windDir e;
     humidity_text := humidity_text e; pressure := pressure e;
     visibility := visibility e; searchInput_value := searchInput_value e;
     suggestions_innerHTML := suggestions_innerHTML e;
     suggestions_classList := suggestions_classList e;
     unitButtons := unitButtons e |}.

Definition set_windSpeed (v : string) (e : Elements) : Elements :=
  {| temperature := temperature e; location_text := location_text e;
     time_text := time_text e; date_text := date_text e;
     conditionIcon_src := conditionIcon_src e;
     conditionIcon_alt := conditionIcon_alt e;
     conditionText := conditionText e; windSpeed := v; windDir := windDir e;
     humidity_text := humidity_text e; pressure := pressure e;
     visibility := visibility e; searchInput_value := searchInput_value e;
     suggestions_innerHTML := suggestions_innerHTML e;
     suggestions_classList := suggestions_classList e;
     unitButtons := unitButtons e |}.

Definition set_windDir (v : string) (e : Elements) : Elements :=
  {| temperature := temperature e; location_text := location_text e;
     time_text := time_text e; date_text := date_text e;
     conditionIcon_src := conditionIcon_src e;
     conditionIcon_alt := conditionIcon_alt e;
     conditionText := conditionText e; windSpeed := windSpeed e;
     windDir := v; humidity_text := humidity_text e; pressure := pressure e;
     visibility := visibility e; searchInput_value := searchInput_value e;
     suggestions_innerHTML := suggestions_innerHTML e;
     suggestions_classList := suggestions_classList e;
     unitButtons := unitButtons e |}.

Definition set_humidity_text (v : string) (e : Elements) : Elements :=
  {| temperature := temperature e; location_text := location_text e;
     time_text := time_text e; date_text := date_text e;
     conditionIcon_src := conditionIcon_src e;
     conditionIcon_alt := conditionIcon_alt e;
     conditionText := conditionText e; windSpeed := windSpeed e;
     windDir := windDir e; humidity_text := v; pressure := pressure e;
     visibility := visibility e; searchInput_value := searchInput_value e;
     suggestions_innerHTML := suggestions_innerHTML e;
     suggestions_classList := suggestions_classList e;
     unitButtons := unitButtons e |}.

Definition set_pressure (v : string) (e : Elements) : Elements :=
  {| temperature := temperature e; location_text := location_text e;
     time_text := time_text e; date_text := date_text e;
     conditionIcon_src := conditionIcon_src e;
     conditionIcon_alt := conditionIcon_alt e;
     conditionText := conditionText e; windSpeed := windSpeed e;
     windDir := windDir e; humidity_text := humidity_text e; pressure := v;
     visibility := visibility e; searchInput_value := searchInput_value e;
     suggestions_innerHTML := suggestions_innerHTML e;
     suggestions_classList := suggestions_classList e;
     unitButtons := unitButtons e |}.

Definition set_visibility (v : string) (e : Elements) : Elements :=
  {| temperature := temperature e; location_text := location_text e;
     time_text := time_text e; date_text := date_text e;
     conditionIcon_src := conditionIcon_src e;
     conditionIcon_alt := conditionIcon_alt e;
     conditionText := conditionText e; windSpeed := windSpeed e;
     windDir := windDir e; humidity_text := humidity_text e;
     pressure := pressure e; visibility := v;
     searchInput_value := searchInput_value e;
     suggestions_innerHTML := suggestions_innerHTML e;
     suggestions_classList := suggestions_classList e;
     unitButtons := unitButtons e |}.

Definition set_searchInput_value (v : string) (e : Elements) : Elements :=
  {| temperature := temperature e; location_text := location_text e;
     time_text := time_text e; date_text := date_text e;
     conditionIcon_src := conditionIcon_src e;
     conditionIcon_alt := conditionIcon_alt e;
     conditionText := conditionText e; windSpeed := windSpeed e;
     windDir := windDir e; humidity_text := humidity_text e;
     pressure := pressure e; visibility := visibility e;
     searchInput_value := v;
     suggestions_innerHTML := suggestions_innerHTML e;
     suggestions_classList := suggestions_classList e;
     unitButtons := unitButtons e |}.

Definition set_suggestions_innerHTML (v : string) (e : Elements) : Elements :=
  {| temperature := temperature e; location_text := location_text e;
     time_text := time_text e; date_text := date_text e;
     conditionIcon_src := conditionIcon_src e;
     conditionIcon_alt := conditionIcon_alt e;
     conditionText := conditionText e; windSpeed := windSpeed e;
     windDir := windDir e; humidity_text := humidity_text e;
     pressure := pressure e; visibility := visibility e;
     searchInput_value := searchInput_value e; suggestions_innerHTML := v;
     suggestions_classList := suggestions_classList e;
     unitButtons := unitButtons e |}.

Definition set_suggestions_classList (v : gset string) (e : Elements) : Elements :=
  {| temperature := temperature e; location_text := location_text e;
     time_text := time_text e; date_text := date_text e;
     conditionIcon_src := conditionIcon_src e;
     conditionIcon_alt := conditionIcon_alt e;
     conditionText := conditionText e; windSpeed := windSpeed e;
     windDir := windDir e; humidity_text := humidity_text e;
     pressure := pressure e; visibility := visibility e;
     searchInput_value := searchInput_value e;
     suggestions_innerHTML := suggestions_innerHTML e;
     suggestions_classList := v; unitButtons := unitButtons e |}.

Definition set_unitButtons (v : list UnitButton) (e : Elements) : Elements :=
  {| temperature := temperature e; location_text := location_text e;
     time_text := time_text e; date_text := date_text e;
     conditionIcon_src := conditionIcon_src e;
     conditionIcon_alt := conditionIcon_alt e;
     conditionText := conditionText e; windSpeed := windSpeed e;
     windDir := windDir e; humidity_text := humidity_text e;
     pressure := pressure e; visibility := visibility e;
     searchInput_value := searchInput_value e;
     suggestions_innerHTML := suggestions_innerHTML e;
     suggestions_classList := suggestions_classList e; unitButtons := v |}.

Definition set_state (v : State) (w : World) : World :=
  {| state := v; elements := elements w; body_classList := body_classList w;
     localStorage := localStorage w; network := network w;
     console := console w |}.

Definition set_elements (v : Elements) (w : World) : World :=
  {| state := state w; elements := v; body_classList := body_classList w;
     localStorage := localStorage w; network := network w;
     console := console w |}.

Definition set_body_classList (v : gset string) (w : World) : World :=
  {| state := state w; elements := elements w; body_classList := v;
     localStorage := localStorage w; network := network w;
     console := console w |}.

Definition set_localStorage (v : gmap string string) (w : World) : World :=
  {| state := state w; elements := elements w;
     body_classList := body_classList w; localStorage := v;
     network := network w; console := console w |}.

Definition set_network (v : list string) (w : World) : World :=
  {| state := state w; elements := elements w;
     body_classList := body_classList w; localStorage := localStorage w;
     network := v; console := console w |}.

Definition set_console (v : list (string * JsError)) (w : World) : World :=
  {| state := state w; elements := elements w;
     body_classList := body_classList w; localStorage := localStorage w;
     network := network w; console := v |}.

Definition on_state (f : State -> State) (w : World) : World :=
  set_state (f (state w)) w.

Definition on_elements (f : Elements -> Elements) (w : World) : World :=
  set_elements (f (elements w)) w.

(** ** Class lists *)

Definition classList_add (c : string) (s : gset string) : gset string := {[c]} ∪ s.
Definition classList_remove (c : string) (s : gset string) : gset string := s ∖ {[c]}.
Definition classList_toggle (c : string) (force : bool) (s : gset string) : gset string :=
  if force then classList_add c s else classList_remove c s.
Definition classList_contains (c : string) (s : gset string) : bool :=
  bool_decide (c ∈ s).

(** ** Completions: statements that may throw

    A script fragment runs on a world and either completes normally or
    throws; in both cases the writes made so far stay. *)

Inductive Completion (A : Type) :=
  | Normal (a : A) (w : World)
  | Throw (e : JsError) (w : World).
Arguments Normal {A} a w.
Arguments Throw {A} e w.

Definition Script (A : Type) : Type := World -> Completion A.

Definition ret {A} (a : A) : Script A := fun w => Normal a w.
Definition throw {A} (e : JsError) : Script A := fun w => Throw e w.
Definition bind {A B} (c : Script A) (k : A -> Script B) : Script B :=
  fun w => match c w with
           | Normal a w' => k a w'
           | Throw e w' => Throw e w'
           end.
(** A statement that cannot throw. *)
Definition exec (f : World -> World) : Script unit := fun w => Normal tt (f w).
Definition get_state : Script State := fun w => Normal (state w) w.

(** [try { body } catch (error) { handler }] *)
Definition try_catch (body : Script unit) (handler : JsError -> World -> World)
  : World -> World :=
  fun w => match body w with
           | Normal _ w' => w'
           | Throw e w' => handler e w'
           end.

Declare Scope script_scope.
Delimit Scope script_scope with script.
Notation "x <- c1 ;; c2" := (bind c1 (fun x => c2))
  (at level 100, c1 at next level, right associativity) : script_scope.
Notation "c1 ;; c2" := (bind c1 (fun _ => c2))
  (at level 100, right associativity) : script_scope.

(** ** Promises

    What a [fetch] settles to: the promise rejects (transport failure), or
    it resolves to a response.  [ResponseOk] is a response whose [ok] flag
    is set, [ResponseNotOk] one whose flag is not; the flag selects how the
    script reads the body, and [response.json()] itself may reject. *)

Inductive JsonResult (A : Type) :=
  | JsonRejected (e : JsError)
  | Json (a : A).
Arguments JsonRejected {A} e.
Arguments Json {A} a.

Inductive Response (S E : Type) :=
  | ResponseOk (body : JsonResult S)
  | ResponseNotOk (body : JsonResult E).
Arguments ResponseOk {S E} body.
Arguments ResponseNotOk {S E} body.

Inductive FetchOutcome (S E : Type) :=
  | Rejected (e : JsError)
  | Resolved (r : Response S E).
Arguments Rejected {S E} e.
Arguments Resolved {S E} r.

Definition await_fetch {S E} (o : FetchOutcome S E) : Script (Response S E) :=
  match o with
  | Rejected e => throw e
  | Resolved r => ret r
  end.

Definition await_json {A} (j : JsonResult A) : Script A :=
  match j with
  | JsonRejected e => throw e
  | Json a => ret a
  end.

(** An [async] function runs to its first [await] on a [fetch] and hands
    the rest back as a continuation, which the event loop runs on the world
    as it is when the response has settled: other handlers may have run in
    between.  Between the script's two awaits ([fetch], then
    [response.json()]) it touches nothing shared, so one continuation
    stands for both. *)
Inductive Async (R : Type) :=
  | Done (w : World)
  | Await (w : World) (k : R -> World -> World).
Arguments Done {R} w.
Arguments Await {R} w k.

(** The world an async call leaves when it returns to the event loop. *)
Definition suspended {R} (a : Async R) : World :=
  match a with Done w => w | Await w _ => w end.

(** The world after the awaited response [r] settles on world [w']. *)
Definition resume {R} (a : Async R) (r : R) (w' : World) : World :=
  match a with Done _ => w' | Await _ k => k r w' end.

(** [await a; f()]: [f] runs once [a] has finished. *)
Definition awaited {R} (a : Async R) (f : World -> World) : Async R :=
  match a with
  | Done w => Done (f w)
  | Await w k => Await w (fun r w' => f (k r w'))
  end.

(** [a; f()] without [await]: [f] runs as soon as [a] suspends, and the
    continuation of [a] is left to the event loop. *)
Definition detached {R} (a : Async R) (f : World -> World) : Async R :=
  match a with
  | Done w => Done (f w)
  | Await w k => Await (f w) k
  end.

(** The call run with nothing interleaved. *)
Definition run_to_end {R} (a : Async R) (r : R) : World :=
  resume a r (suspended a).

Definition CurrentOutcome : Type := FetchOutcome WeatherSnapshot JsonValue.
Definition SearchOutcome : Type := FetchOutcome (option (list SearchSuggestion)) unit.

(** [fetch(url)]: the request leaves. *)
Definition fetch (url : string) (w : World) : World :=
  set_network (network w ++ [url]) w.

Definition console_error (label : string) (e : JsError) (w : World) : World :=
  set_console (console w ++ [(label, e)]) w.

Definition api_key : string := "44ab26d1da7d4804a1d30908251008".

Definition current_url (location : string) : string :=
  "https://api.weatherapi.com/v1/current.json?key=" +:+ api_key +:+ "&q=" +:+
  encodeURIComponent location.

Definition search_url (query : string) : string :=
  "https://api.weatherapi.com/v1/search.json?key=" +:+ api_key +:+ "&q=" +:+
  encodeURIComponent query.

(** ** Element children

    Assigning [innerHTML] replaces an element's children by the nodes its
    markup denotes.  The script only ever writes a sequence of
    [<div class="...">text</div>] elements; [children_of] reads such a
    sequence back, which is what a click inside the suggestion list can
    hit.  The classes it reads are the parser's.  The text it reads is the
    parser's when it is plain ([is_plain_text]): the parser ends the text
    at [<], decodes character references at [&], turns a carriage return
    into a line feed and drops NUL, none of which [children_of] does. *)

Record Node := {
  classList : gset string;
  textContent : string
}.

Fixpoint strip_prefix (p s : string) : option string :=
  match p, s with
  | EmptyString, _ => Some s
  | String a p', String b s' => if bool_decide (a = b) then strip_prefix p' s' else None
  | String _ _, EmptyString => None
  end.

(** The text before the first [c], and the text after it. *)
Fixpoint split_at (c : ascii) (s : string) : option (string * string) :=
  match s with
  | EmptyString => None
  | String a r =>
      if bool_decide (a = c) then Some (EmptyString, r)
      else '(u, v) ← split_at c r; Some (String a u, v)
  end.

(** The space-separated tokens of a [class] attribute. *)
Fixpoint class_tokens (cur s : string) : list string :=
  match s with
  | EmptyString => if truthy cur then [cur] else []
  | String a r =>
      if bool_decide (a = " "%char)
      then (if truthy cur then cur :: class_tokens EmptyString r
            else class_tokens EmptyString r)
      else class_tokens (cur +:+ String a EmptyString) r
  end.

Fixpoint parse_divs (fuel : nat) (s : string) : option (list Node) :=
  match s with
  | EmptyString => Some []
  | String _ _ =>
      match fuel with
      | O => None
      | S fuel =>
          s ← strip_prefix ("<div class=" +:+ String dquote EmptyString) s;
          '(cls, s) ← split_at dquote s;
          s ← strip_prefix ">" s;
          '(txt, s) ← split_at "<"%char s;
          s ← strip_prefix "/div>" s;
          rest ← parse_divs fuel s;
          Some ({| classList := list_to_set (class_tokens EmptyString cls);
                   textContent := txt |} :: rest)
      end
  end.

Definition children_of (innerHTML : string) : option (list Node) :=
  parse_divs (String.length innerHTML) innerHTML.

(** Text that the markup parser takes as it is. *)
Definition is_plain_text (t : string) : bool :=
  forallb (fun c => negb (bool_decide (c = "<"%char) || bool_decide (c = "&"%char)
                          || (nat_of_ascii c =? 13) || (nat_of_ascii c =? 0)))
          (list_ascii_of_string t).

(** The node [<div class="suggestion-item">t</div>] denotes. *)
Definition item_node (t : string) : Node :=
  {| classList := {["suggestion-item"]}; textContent := t |}.

(** ** The script *)

Section Script.
Context {host : Host}.

Local Open Scope script_scope.

(** *** UI states *)

Definition showLoadingState (w : World) : World :=
  let w := on_elements (set_temperature "...") w in
  on_elements (set_conditionText "Loading...") w.

Definition showErrorState (message : string) (w : World) : World :=
  let w := on_elements (set_temperature "--") w in
  on_elements (set_conditionText (or_else (Some message) "Data unavailable")) w.

(** *** State management *)

(** [localStorage.setItem(key, value)]: the write, or the exception the
    host raises in its place. *)
Definition setItem (key value : string) : Script unit :=
  fun w =>
    match setItem_error (localStorage w) key value with
    | Some e => Throw e w
    | None => Normal tt (set_localStorage (<[key := value]> (localStorage w)) w)
    end.

Definition storeLocation (location : string) : Script unit :=
  exec (on_state (set_lastLocation location)) ;;
  setItem "lastLocation" location.

(** *** Reading the error payload *)

(** [v.name] for a name no prototype defines: a [TypeError] on [null], the
    member on an object, [undefined] on every other value. *)
Definition read_member (name : string) (v : JsonValue) : Script (option JsonValue) :=
  match v with
  | JNull => throw (null_member_error name)
  | JObject members => ret (member_of name members)
  | _ => ret None
  end.

(** [ToString] of a parsed value, which [new Error(message)] applies to
    its argument.  An array joins its elements with commas, [null]
    elements as the empty string; an object is [[object Object]] unless a
    member named [toString] hides the inherited method, in which case no
    primitive value is found and a [TypeError] is thrown. *)
Fixpoint to_string (v : JsonValue) : JsError + string :=
  match v with
  | JNull => inr "null"
  | JBool b => inr (if b then "true" else "false")
  | JNumber x => inr (number_to_string x)
  | JString s => inr s
  | JArray items =>
      (fix join (items : list JsonValue) : JsError + string :=
         match items with
         | [] => inr EmptyString
         | x :: rest =>
             match (match x with JNull => inr EmptyString | _ => to_string x end) with
             | inl e => inl e
             | inr sx =>
                 match rest with
                 | [] => inr sx
                 | _ :: _ =>
                     match join rest with
                     | inl e => inl e
                     | inr sr => inr (sx +:+ "," +:+ sr)
                     end
                 end
             end
         end) items
  | JObject members =>
      match member_of "toString" members with
      | Some _ => inl to_primitive_error
      | None => inr "[object Object]"
      end
  end.

(** [errorData.error?.message] for an [errorData] other than [null]. *)
Definition error_message_field (errorData : JsonValue) : option JsonValue :=
  optional_member "message"
    (match errorData with
     | JObject members => member_of "error" members
     | _ => None
     end).

(** The [message] of [new Error(v)]. *)
Definition new_Error (v : JsonValue) : Script JsError :=
  match to_string v with
  | inl e => throw e
  | inr text => ret (Error text)
  end.

(** *** Rendering *)

Definition updateTemperature (temp : Q) (unit : Unit) (w : World) : World :=
  let w := on_elements (set_temperature (number_to_string (inject_Z (Math_round temp)))) w in
  on_elements (fun e =>
    set_unitButtons
      (map (fun btn =>
              set_btn_classList
                (classList_toggle "active" (bool_decide (dataset_unit btn = unit))
                   (btn_classList btn)) btn)
           (unitButtons e)) e) w.

Definition updateDateTime (localtime : string) (w : World) : World :=
  let w := on_elements (set_time_text (toLocaleTimeString localtime)) w in
  on_elements (set_date_text (toLocaleDateString localtime)) w.

Definition updateUI : Script unit :=
  s <- get_state ;;
  match weatherData s with
  | None => throw null_type_error
  | Some data =>
      let location := location data in
      let current := current data in
      exec (fun w =>
        let w := on_elements (set_location_text
                   (loc_name location +:+ ", " +:+ loc_country location)) w in
        let w := updateDateTime (localtime location) w in
        let w := updateTemperature (temp_of (currentUnit (state w)) current)
                   (currentUnit (state w)) w in
        let w := on_elements (set_conditionIcon_src ("https:" +:+ icon (condition current))) w in
        let w := on_elements (set_conditionIcon_alt (text (condition current))) w in
        let w := on_elements (set_conditionText (text (condition current))) w in
        let w := on_elements (set_windSpeed (number_to_string (wind_kph current) +:+ " km/h")) w in
        let w := on_elements (set_windDir (wind_dir current)) w in
        let w := on_elements (set_humidity_text (number_to_string (humidity current) +:+ "%")) w in
        let w := on_elements (set_pressure (number_to_string (pressure_mb current) +:+ " hPa")) w in
        let w := on_elements (set_visibility (number_to_string (vis_km current) +:+ " km")) w in
        set_body_classList
          (classList_toggle "night-mode" (number_not (is_day current)) (body_classList w)) w)
  end.

(** The world after [state.weatherData = data; updateUI()], the point at
    which [fetchWeather] calls [storeLocation]. *)
Definition render (data : WeatherSnapshot) (w : World) : World :=
  match updateUI (on_state (set_weatherData (Some data)) w) with
  | Normal _ w' => w'
  | Throw _ w' => w'
  end.

(** *** Fetch weather data *)

(** The [try] block of [fetchWeather] from the point where the [fetch]
    promise has settled. *)
Definition fetchWeather_body (location : string) (o : CurrentOutcome) : Script unit :=
  response <- await_fetch o ;;
  match response with
  | ResponseNotOk body =>
      errorData <- await_json body ;;
      error <- read_member "error" errorData ;;
      failure <- new_Error (json_or (optional_member "message" error)
                              "Weather data unavailable") ;;
      throw failure
  | ResponseOk body =>
      data <- await_json body ;;
      exec (on_state (set_weatherData (Some data))) ;;
      updateUI ;;
      storeLocation location
  end.

Definition fetchWeather_catch (error : JsError) (w : World) : World :=
  let w := console_error "Fetch error:" error w in
  showErrorState (message error) w.

Definition fetchWeather (location : string) (w : World) : Async CurrentOutcome :=
  let w := showLoadingState w in
  let w := fetch (current_url location) w in
  Await w (fun o => try_catch (fetchWeather_body location o) fetchWeather_catch).

(** *** Unit conversion *)

(** The guard returns when the unit is the current one or no snapshot is
    stored; past it, the snapshot read is the one matched here. *)
Definition switchUnit (unit : Unit) (w : World) : World :=
  match weatherData (state w) with
  | Some data =>
      if bool_decide (currentUnit (state w) = unit) then w
      else
        let w := on_state (set_currentUnit unit) w in
        let temp := temp_of unit (current data) in
        updateTemperature temp unit w
  | None => w
  end.

(** *** Suggestions *)

Definition hideSuggestions (w : World) : World :=
  on_elements (fun e =>
    set_suggestions_classList (classList_remove "show" (suggestions_classList e)) e) w.

Definition clearSearch (w : World) : World :=
  let w := on_elements (set_searchInput_value EmptyString) w in
  hideSuggestions w.

(** [<div class="suggestion-item">t</div>], the wrapper of both template
    literals of [showSuggestions]. *)
Definition suggestion_item (t : string) : string :=
  "<div class=" +:+ String dquote "suggestion-item" +:+ String dquote ">" +:+ t +:+ "</div>".

Definition showSuggestions (suggestions : option (list SearchSuggestion)) (w : World) : World :=
  let w :=
    match suggestions with
    | None | Some [] =>
        on_elements (set_suggestions_innerHTML (suggestion_item "No results found")) w
    | Some suggestions =>
        on_elements (set_suggestions_innerHTML
          (String.concat EmptyString
             (map (fun item => suggestion_item (sg_name item +:+ ", " +:+ sg_country item))
                  (take 5 suggestions)))) w
    end in
  on_elements (fun e =>
    set_suggestions_classList (classList_add "show" (suggestions_classList e)) e) w.

(** *** Search handling *)

(** [e.preventDefault()] only stops the form from navigating away. *)
Definition handleSearch (w : World) : Async CurrentOutcome :=
  let location := trim (searchInput_value (elements w)) in
  if truthy location then
    awaited (fetchWeather location w) clearSearch
  else Done w.

Definition handleInput_body (o : SearchOutcome) : Script unit :=
  response <- await_fetch o ;;
  match response with
  | ResponseNotOk _ => throw (Error "Suggestions unavailable")
  | ResponseOk body =>
      suggestions <- await_json body ;;
      exec (showSuggestions suggestions)
  end.

Definition handleInput_catch (error : JsError) (w : World) : World :=
  let w := console_error "Suggestions error:" error w in
  hideSuggestions w.

Definition handleInput (w : World) : Async SearchOutcome :=
  let query := trim (searchInput_value (elements w)) in
  if String.length query <? 2 then Done (hideSuggestions w)
  else
    let w := fetch (search_url query) w in
    Await w (fun o => try_catch (handleInput_body o) handleInput_catch).

Definition handleSuggestionClick (target : Node) (w : World) : Async CurrentOutcome :=
  if classList_contains "suggestion-item" (classList target) then
    detached (fetchWeather (textContent target) w) clearSearch
  else Done w.

(** *** Startup *)

(** The [state] literal, evaluated when the script loads. *)
Definition initial_state (storage : gmap string string) : State :=
  {| currentUnit := Celsius;
     lastLocation := or_else (storage !! "lastLocation") "London";
     weatherData := None |}.

(** The world when the script has loaded on [page]: nothing fetched,
    nothing logged. *)
Definition load (page : Elements) (body : gset string) (storage : gmap string string)
  : World :=
  {| state := initial_state storage; elements := page; body_classList := body;
     localStorage := storage; network := []; console := [] |}.

(** [setupEventListeners] binds [handleSearch], [debounce(handleInput, 300)],
    [handleSuggestionClick] and [switchUnit] to their events and writes
    nothing. *)
Definition initApp (w : World) : Async CurrentOutcome :=
  fetchWeather (lastLocation (state w)) w.

End Script.

(** ** Debounce

    [debounce(func, delay)] returns a closure over one variable, [timeout],
    holding the handle of the timer it set last.  The host side is the
    timer table of [setTimeout] and [clearTimeout] and a clock; [calls]
    records every [func.apply(this, args)] with the time at which the event
    loop ran it. *)

Module Debounce.
Section Debounce.
Context {A : Type}.
Variable delay : nat.

Record Timer := {
  timer_id : nat;
  due : nat;
  timer_args : A
}.

Record Loop := {
  now : nat;
  next_id : nat;
  timers : list Timer;
  timeout : option nat;
  calls : list (nat * A)
}.

(** A fresh page: no timer set, [timeout] undefined, [func] never called. *)
Definition init (now0 id0 : nat) : Loop :=
  {| now := now0; next_id := id0; timers := []; timeout := None; calls := [] |}.

(** [clearTimeout(handle)]: an undefined or stale handle clears nothing. *)
Definition clearTimeout (handle : option nat) (l : Loop) : Loop :=
  match handle with
  | None => l
  | Some id =>
      {| now := now l; next_id := next_id l;
         timers := filter (fun tm => timer_id tm ≠ id) (timers l);
         timeout := timeout l; calls := calls l |}
  end.

(** [setTimeout(() => func.apply(this, args), ms)]: the new handle, and the
    table with the timer added. *)
Definition setTimeout (args : A) (ms : nat) (l : Loop) : nat * Loop :=
  (next_id l,
   {| now := now l; next_id := S (next_id l);
      timers := timers l ++ [{| timer_id := next_id l; due := now l + ms; timer_args := args |}];
      timeout := timeout l; calls := calls l |}).

(** The closure [(...args) => { clearTimeout(timeout); timeout = setTimeout(...) }]. *)
Definition debounced (args : A) (l : Loop) : Loop :=
  let l := clearTimeout (timeout l) l in
  let '(handle, l) := setTimeout args delay l in
  {| now := now l; next_id := next_id l; timers := timers l;
     timeout := Some handle; calls := calls l |}.

(** The event loop reaches time [t]: every timer that is due leaves the
    table and its callback runs.  (All timers here carry the same delay, so
    table order is due order.) *)
Definition advance (t : nat) (l : Loop) : Loop :=
  let t := max (now l) t in
  {| now := t; next_id := next_id l;
     timers := filter (fun tm => t < due tm) (timers l);
     timeout := timeout l;
     calls := calls l ++ map (fun tm => (t, timer_args tm))
                             (filter (fun tm => due tm ≤ t) (timers l)) |}.

(** A trace of invocations, each made by a task of its own at the time
    given: the loop reaches that time, running the timers due by then, and
    the task calls the wrapper once.  Tasks that call the wrapper more than
    once, and tasks at the instant a timer falls due, are the matter of
    [run_tasks] and [separate] below. *)
Fixpoint run (trace : list (nat * A)) (l : Loop) : Loop :=
  match trace with
  | [] => l
  | (t, args) :: rest => run rest (debounced args (advance t l))
  end.

(** Every invocation follows the previous one (at time [prev]) by less
    than [delay]. *)
Fixpoint rapid (prev : nat) (trace : list (nat * A)) : Prop :=
  match trace with
  | [] => True
  | (t, _) :: rest => prev ≤ t ∧ t < prev + delay ∧ rapid t rest
  end.

(** The last invocation of a trace that starts with [first]. *)
Fixpoint final (first : nat * A) (rest : list (nat * A)) : nat * A :=
  match rest with
  | [] => first
  | next :: rest => final next rest
  end.

(** The timer table holds nothing, or exactly the timer [timeout] names. *)
Definition single_slot (l : Loop) : Prop :=
  timers l = [] \/ exists tm, timers l = [tm] /\ timeout l = Some (timer_id tm).

(** Just after an invocation at time [t] with [args]: its timer is the only
    one, and [func] has not been called. *)
Definition armed (t : nat) (args : A) (l : Loop) : Prop :=
  now l = t /\ calls l = [] /\
  exists id, timers l = [{| timer_id := id; due := t + delay; timer_args := args |}]
             /\ timeout l = Some id.


(** In general a task runs at some time and makes one or more invocations
    in a row; no timer callback can run inside it, so each invocation after
    the first clears the timer the one before it set, whatever the delay.
    A task is its time, its first invocation and the further ones. *)
Definition Task : Type := nat * (A * list A).

Definition invocations (task : Task) : list A :=
  fst (snd task) :: snd (snd task).


(** The loop reaches the task's time, then the task makes its invocations. *)
Definition run_task (task : Task) (l : Loop) : Loop :=
  foldl (fun l args => debounced args l) (advance (fst task) l) (invocations task).

Fixpoint run_tasks (tasks : list Task) (l : Loop) : Loop :=
  match tasks with
  | [] => l
  | task :: rest => run_tasks rest (run_task task l)
  end.

(** A trace of [run] read as tasks. *)
Definition single (invocation : nat * A) : Task :=
  (fst invocation, (snd invocation, [])).




End Debounce.
End Debounce.

(** ** The search field's input listener

    [setupEventListeners] binds [debounce(handleInput, 300)] to the search
    field's [input] event.  A page is the world together with the timer
    state of that one wrapper; the wrapper's only argument is the event
    object, which [handleInput] ignores. *)

Definition input_delay : nat := 300.

Record Page := {
  world : World;
  input_timer : Debounce.Loop (A := unit)
}.

(** The event loop reaches time [t]: each timer callback that has become
    due runs [handleInput] up to its [await]; what follows the [await] is
    left to the response. *)
Definition run_due (t : nat) (p : Page) : Page :=
  let l := Debounce.advance t (input_timer p) in
  let fired := drop (length (Debounce.calls (input_timer p))) (Debounce.calls l) in
  {| world := foldl (fun w _ => suspended (handleInput w)) (world p) fired;
     input_timer := l |}.

(** The user edits the search field at time [t], leaving [value] in it:
    the browser updates the field, then calls the listener. *)
Definition input_event (t : nat) (value : string) (p : Page) : Page :=
  let p := run_due t p in
  {| world := on_elements (set_searchInput_value value) (world p);
     input_timer := Debounce.debounced input_delay tt (input_timer p) |}.

Fixpoint input_events (events : list (nat * string)) (p : Page) : Page :=
  match events with
  | [] => p
  | (t, value) :: rest => input_events rest (input_event t value p)
  end.

(** A page whose search field has not been edited yet. *)
Definition page_of (w : World) (now0 id0 : nat) : Page :=
  {| world := w; input_timer := Debounce.init now0 id0 |}.

(** ** A concrete host and page, for running the script *)

Module Sample.

(** Decimal digits of the fraction [r / d] (with [r < d]), as far as they
    terminate within [fuel] places. *)
Fixpoint fraction_digits (fuel : nat) (r d : N) : string :=
  match fuel with
  | O => EmptyString
  | S fuel =>
      if (r =? 0)%N then EmptyString
      else pretty (10 * r / d)%N +:+ fraction_digits fuel ((10 * r) mod d)%N d
  end.

Definition decimal (x : Q) : string :=
  let n := Z.abs_N (Qnum x) in
  let d := Npos (Qden x) in
  let sign := if (Qnum x <? 0)%Z then "-" else EmptyString in
  let frac := fraction_digits 17 (n mod d)%N d in
  sign +:+ pretty (n / d)%N +:+ (if truthy frac then "." +:+ frac else EmptyString).

Definition host : Host :=
  {| number_to_string := decimal;
     toLocaleTimeString := fun localtime => String.substring 11 5 localtime;
     toLocaleDateString := fun localtime => String.substring 0 10 localtime;
     null_type_error := Error "Cannot destructure 'state.weatherData' as it is null.";
     null_member_error := fun name =>
       Error ("Cannot read properties of null (reading '" +:+ name +:+ "')");
     to_primitive_error := Error "Cannot convert object to primitive value";
     setItem_error := fun _ _ _ => None |}.

(** The same browser with its storage full: every write throws. *)
Definition full_host : Host :=
  {| number_to_string := decimal;
     toLocaleTimeString := fun localtime => String.substring 11 5 localtime;
     toLocaleDateString := fun localtime => String.substring 0 10 localtime;
     null_type_error := Error "Cannot destructure 'state.weatherData' as it is null.";
     null_member_error := fun name =>
       Error ("Cannot read properties of null (reading '" +:+ name +:+ "')");
     to_primitive_error := Error "Cannot convert object to primitive value";
     setItem_error := fun _ key _ =>
       Some (Error ("Failed to execute 'setItem' on 'Storage': Setting the value of '"
                    +:+ key +:+ "' exceeded the quota.")) |}.

Definition page : Elements :=
  {| temperature := EmptyString; location_text := EmptyString; time_text := EmptyString; date_text := EmptyString;
     conditionIcon_src := EmptyString; conditionIcon_alt := EmptyString; conditionText := EmptyString;
     windSpeed := EmptyString; windDir := EmptyString; humidity_text := EmptyString; pressure := EmptyString;
     visibility := EmptyString; searchInput_value := EmptyString;
     suggestions_innerHTML := EmptyString; suggestions_classList := ∅;
     unitButtons := [ {| dataset_unit := Celsius; btn_classList := {["active"]} |};
                      {| dataset_unit := Fahrenheit; btn_classList := ∅ |} ] |}.

Definition paris : WeatherSnapshot :=
  {| location := {| loc_name := "Paris"; loc_country := "France";
                    localtime := "2025-08-10 21:35" |};
     current := {| temp_c := 66 # 5; temp_f := 279 # 5;
                   condition := {| text := "Partly cloudy";
                                   icon := "//cdn.weatherapi.com/weather/64x64/night/116.png" |};
                   wind_kph := 56 # 5; wind_dir := "NNE"; humidity := 72;
                   pressure_mb := 1019; vis_km := 10; is_day := 0 |} |}.

Definition fresh : World := load page ∅ ∅.

Definition success : CurrentOutcome := Resolved (ResponseOk (Json paris)).

(** A failed response whose body is [{"error": {"code": 1006, "message": m}}]. *)
Definition not_found (m : string) : CurrentOutcome :=
  Resolved (ResponseNotOk
    (Json (JObject [("error", JObject [("code", JNumber 1006); ("message", JString m)])]))).

(** A failed response whose body is the JSON text [null]. *)
Definition null_body : CurrentOutcome := Resolved (ResponseNotOk (Json JNull)).

Definition shown_paris : World := run_to_end (fetchWeather (host := host) "Paris" fresh) success.

(** The fresh page with [value] typed into the search field. *)
Definition typed (value : string) : World :=
  on_elements (set_searchInput_value value) fresh.

Definition offline : CurrentOutcome := Rejected (Error "Failed to fetch").

(** The suggestion list element itself, as a click target. *)
Definition container : Node :=
  {| classList := {["search-suggestions"]}; textContent := "Tokyo, Japan" |}.

Definition tokyo : list SearchSuggestion :=
  [ {| sg_name := "Tokyo"; sg_country := "Japan" |};
    {| sg_name := "Tokyo Heights"; sg_country := "United States of America" |} ].

End Sample.

Example sample_trim : trim "  New York 	" = "New York".
Proof. reflexivity. Qed.

Example sample_trim_blank : trim "   " = EmptyString.
Proof. reflexivity. Qed.

Example sample_encode : encodeURIComponent "No results found" = "No%20results%20found".
Proof. reflexivity. Qed.

Example sample_scheme :
  url_scheme "HTTP://cdn.weatherapi.com/x.png" = Some "http" /\ url_scheme "//cdn/x.png" = None.
Proof. split; reflexivity. Qed.

Example sample_temperature : temperature (elements Sample.shown_paris) = "13".
Proof. vm_compute. reflexivity. Qed.

Example sample_wind : windSpeed (elements Sample.shown_paris) = "11.2 km/h".
Proof. vm_compute. reflexivity. Qed.

Example sample_icon :
  conditionIcon_src (elements Sample.shown_paris)
  = "https://cdn.weatherapi.com/weather/64x64/night/116.png".
Proof. vm_compute. reflexivity. Qed.

Example sample_request :
  network Sample.shown_paris =
  ["https://api.weatherapi.com/v1/current.json?key=44ab26d1da7d4804a1d30908251008&q=Paris"].
Proof. vm_compute. reflexivity. Qed.

Example sample_stored : localStorage Sample.shown_paris !! "lastLocation" = Some "Paris".
Proof. vm_compute. reflexivity. Qed.

Example sample_fahrenheit :
  temperature (elements (switchUnit (host := Sample.host) Fahrenheit Sample.shown_paris)) = "56".
Proof. vm_compute. reflexivity. Qed.

Example sample_suggestions :
  children_of
    (suggestions_innerHTML (elements (showSuggestions (Some Sample.tokyo) Sample.fresh)))
  = Some [item_node "Tokyo, Japan"; item_node "Tokyo Heights, United States of America"].
Proof. vm_compute. reflexivity. Qed.

Example sample_suggestion_click :
  network (suspended (handleSuggestionClick (host := Sample.host)
                        (item_node "Tokyo, Japan") Sample.fresh))
  = ["https://api.weatherapi.com/v1/current.json?key=44ab26d1da7d4804a1d30908251008&q=Tokyo%2C%20Japan"].
Proof. vm_compute. reflexivity. Qed.

Example sample_round_half : Math_round (5 # 2) = 3%Z /\ Math_round (- (5 # 2)) = (-2)%Z.
Proof. split; reflexivity. Qed.

Example sample_placeholder :
  children_of (suggestion_item "No results found")
  = Some [ {| classList := {["suggestion-item"]}; textContent := "No results found" |} ].
Proof. vm_compute. reflexivity. Qed.

Example sample_encode_latin1 :
  encodeURIComponent (String (ascii_of_nat 227) "o/Paulo") = "%C3%A3o%2FPaulo".
Proof. reflexivity. Qed.

(** * Properties *)

(** [Math_round x] is the integer within a half of [x], the upper one when
    [x] lies halfway between two integers. *)
Lemma Math_round_nearest (x : Q) :
  (inject_Z (Math_round x) - (1 # 2) <= x)%Q /\ (x < inject_Z (Math_round x) + (1 # 2))%Q.
Proof.
  unfold Math_round.
  pose proof (Qfloor_le (x + (1 # 2))) as Hle.
  pose proof (Qlt_floor (x + (1 # 2))) as Hlt.
  rewrite inject_Z_plus in Hlt. change (inject_Z 1) with 1%Q in Hlt.
  split; lra.
Qed.

Lemma Math_round_integer (n : Z) : Math_round (inject_Z n) = n.
Proof.
  unfold Math_round.
  pose proof (Qfloor_le (inject_Z n + (1 # 2))) as Hle.
  pose proof (Qlt_floor (inject_Z n + (1 # 2))) as Hlt.
  rewrite inject_Z_plus in Hlt. change (inject_Z 1) with 1%Q in Hlt.
  assert (Qfloor (inject_Z n + (1 # 2)) < n + 1)%Z as Hup
    by (rewrite Zlt_Qlt, inject_Z_plus; change (inject_Z 1) with 1%Q; lra).
  assert (n < Qfloor (inject_Z n + (1 # 2)) + 1)%Z as Hlow
    by (rewrite Zlt_Qlt, inject_Z_plus; change (inject_Z 1) with 1%Q; lra).
  lia.
Qed.

Section Properties.
Context {host : Host}.

(** ** The fetch continuation, case by case *)

Lemma fetchWeather_suspended location w :
  suspended (fetchWeather location w) = fetch (current_url location) (showLoadingState w).
Proof. reflexivity. Qed.

(** [updateUI] completes normally once a snapshot is stored. *)
Lemma updateUI_normal w data :
  weatherData (state w) = Some data ->
  exists w1, updateUI w = Normal tt w1
    /\ state w1 = state w
    /\ localStorage w1 = localStorage w
    /\ network w1 = network w
    /\ console w1 = console w
    /\ temperature (elements w1)
       = number_to_string (inject_Z (Math_round (temp_of (currentUnit (state w)) (current data))))
    /\ conditionIcon_src (elements w1) = "https:" +:+ icon (condition (current data)).
Proof.
  intros Hdata. unfold updateUI, bind, get_state. rewrite Hdata.
  eexists. split; [reflexivity|]. repeat split; reflexivity.
Qed.

(** A successful response: the snapshot is rendered and [lastLocation]
    assigned; then the storage write either goes through or throws into
    the [catch]. *)
Lemma fetchWeather_success location w w' data :
  resume (fetchWeather location w) (Resolved (ResponseOk (Json data))) w'
  = match setItem_error (localStorage w') "lastLocation" location with
    | None =>
        set_localStorage (<["lastLocation" := location]> (localStorage w'))
          (on_state (set_lastLocation location) (render data w'))
    | Some e => fetchWeather_catch e (on_state (set_lastLocation location) (render data w'))
    end.
Proof.
  cbn [resume fetchWeather]. unfold try_catch, fetchWeather_body, bind, render.
  cbn [await_fetch await_json ret exec].
  destruct (updateUI_normal (on_state (set_weatherData (Some data)) w') data eq_refl)
    as (w1 & -> & _ & Hstorage & _).
  unfold storeLocation, bind, exec, setItem.
  cbn [on_state set_state localStorage]. rewrite Hstorage.
  cbn [on_state set_state localStorage].
  destruct (setItem_error (localStorage w') "lastLocation" location); reflexivity.
Qed.

(** The rendered world, field by field. *)
Lemma render_fields data w' :
  let c := current data in
  state (render data w')
  = {| currentUnit := currentUnit (state w'); lastLocation := lastLocation (state w');
       weatherData := Some data |} /\
  localStorage (render data w') = localStorage w' /\
  network (render data w') = network w' /\
  console (render data w') = console w' /\
  body_classList (render data w')
  = classList_toggle "night-mode" (number_not (is_day c)) (body_classList w') /\
  elements (render data w')
  = {| temperature :=
         number_to_string (inject_Z (Math_round (temp_of (currentUnit (state w')) c)));
       location_text := loc_name (location data) +:+ ", " +:+ loc_country (location data);
       time_text := toLocaleTimeString (localtime (location data));
       date_text := toLocaleDateString (localtime (location data));
       conditionIcon_src := "https:" +:+ icon (condition c);
       conditionIcon_alt := text (condition c);
       conditionText := text (condition c);
       windSpeed := number_to_string (wind_kph c) +:+ " km/h";
       windDir := wind_dir c;
       humidity_text := number_to_string (humidity c) +:+ "%";
       pressure := number_to_string (pressure_mb c) +:+ " hPa";
       visibility := number_to_string (vis_km c) +:+ " km";
       searchInput_value := searchInput_value (elements w');
       suggestions_innerHTML := suggestions_innerHTML (elements w');
       suggestions_classList := suggestions_classList (elements w');
       unitButtons :=
         map (fun btn =>
                set_btn_classList
                  (classList_toggle "active"
                     (bool_decide (dataset_unit btn = currentUnit (state w')))
                     (btn_classList btn)) btn)
             (unitButtons (elements w')) |}.
Proof.
  cbn zeta. destruct w' as [[cu ll wd] els bcl ls net con]. destruct els.
  repeat split; reflexivity.
Qed.

(** The body after a failed response, [errorData.error?.message || ...]
    and [new Error], always throws. *)
Lemma error_payload_throws (errorData : JsonValue) (w' : World) :
  exists e,
    (error <- read_member "error" errorData ;;
     failure <- new_Error (json_or (optional_member "message" error)
                             "Weather data unavailable") ;;
     (throw failure : Script unit))%script w' = Throw e w'.
Proof.
  unfold bind, read_member, new_Error.
  destruct errorData; cbn [throw ret]; try (eexists; reflexivity);
    match goal with
    | |- context [to_string ?v] => destruct (to_string v); eexists; reflexivity
    end.
Qed.

Lemma fetchWeather_failure location w w' o :
  (forall data, o <> Resolved (ResponseOk (Json data))) ->
  exists e, fetchWeather_body location o w' = Throw e w'
    /\ resume (fetchWeather location w) o w' = fetchWeather_catch e w'.
Proof.
  intros Hfail. cbn [resume fetchWeather]. unfold try_catch.
  destruct o as [e|[[e|data]|[e|errorData]]].
  - exists e. split; reflexivity.
  - exists e. split; reflexivity.
  - exfalso. eapply Hfail. reflexivity.
  - exists e. split; reflexivity.
  - destruct (error_payload_throws errorData w') as [e He].
    exists e.
    assert (fetchWeather_body location (Resolved (ResponseNotOk (Json errorData))) w'
            = Throw e w') as Hbody by exact He.
    rewrite Hbody. split; reflexivity.
Qed.

(** ** Successful fetch *)


(** C7. For every rendered snapshot the icon address written to the display
    is the snapshot's icon reference behind the prefix [https:], and its
    URL scheme is [https] whatever the reference is. *)
Theorem icon_url_is_https location w w' data :
  let w'' := resume (fetchWeather location w) (Resolved (ResponseOk (Json data))) w' in
  conditionIcon_src (elements w'') = "https:" +:+ icon (condition (current data)) /\
  url_scheme (conditionIcon_src (elements w'')) = Some "https".
Proof.
  cbn zeta. rewrite fetchWeather_success.
  pose proof (render_fields data w') as Hrendered. cbn zeta in Hrendered.
  revert Hrendered. generalize (render data w'). intros r (_ & _ & _ & _ & _ & Hels).
  assert (forall settled : World,
            conditionIcon_src (elements settled) = conditionIcon_src (elements r) ->
            conditionIcon_src (elements settled)
            = "https:" +:+ icon (condition (current data)) /\
            url_scheme (conditionIcon_src (elements settled)) = Some "https") as Hicon.
  { intros settled ->. rewrite Hels. split; reflexivity. }
  apply Hicon.
  destruct (setItem_error (localStorage w') "lastLocation" location); reflexivity.
Qed.

(** C3, as the script has it.  Right after a successful fetch for
    [location] whose storage write does not throw, the in-memory
    [lastLocation] and the stored one are both [location]; and if
    [location] is not the empty string (no call site passes it), a page
    loaded afresh on that storage starts from [location] and fetches it. *)
Theorem successful_fetch_persists_location location w w' data page body :
  setItem_error (localStorage w') "lastLocation" location = None ->
  let w'' := resume (fetchWeather location w) (Resolved (ResponseOk (Json data))) w' in
  lastLocation (state w'') = location /\
  localStorage w'' !! "lastLocation" = Some location /\
  (location <> EmptyString ->
   let boot := load page body (localStorage w'') in
   lastLocation (state boot) = location /\
   network (suspended (initApp boot)) = [current_url location]).
Proof.
  intros Hstored. cbn zeta. rewrite fetchWeather_success, Hstored.
  generalize (render data w'). intros r.
  cbn [set_localStorage on_state set_state state localStorage set_lastLocation lastLocation].
  split; [reflexivity|]. split; [apply lookup_insert_eq|].
  intros Hne. unfold initApp. rewrite fetchWeather_suspended.
  cbn [load state initial_state lastLocation localStorage].
  rewrite lookup_insert_eq. cbn [or_else].
  destruct location as [|c r']; [congruence|]. cbn [truthy].
  split; reflexivity.
Qed.

(** ** Failed fetch *)

(** C8. If the fetch promise rejects, the response is not a success, or the
    body of a success does not parse, then neither issuing the request nor
    settling it changes [state] (so neither [weatherData] nor
    [lastLocation]) or the storage: settling only sets the temperature and
    condition text to the error display and logs the error. *)
Theorem failed_fetch_keeps_state location w w' o :
  (forall data, o <> Resolved (ResponseOk (Json data))) ->
  state (suspended (fetchWeather location w)) = state w /\
  localStorage (suspended (fetchWeather location w)) = localStorage w /\
  let w'' := resume (fetchWeather location w) o w' in
  state w'' = state w' /\
  localStorage w'' = localStorage w' /\
  network w'' = network w' /\
  body_classList w'' = body_classList w' /\
  exists e,
    elements w''
    = set_conditionText (or_else (Some (message e)) "Data unavailable")
        (set_temperature "--" (elements w')) /\
    console w'' = (console w' ++ [("Fetch error:", e)])%list.
Proof.
  intros Hfail. split; [reflexivity|]. split; [reflexivity|]. cbn zeta.
  destruct (fetchWeather_failure location w w' o Hfail) as (e & _ & ->).
  repeat (split; [reflexivity|]). exists e. split; reflexivity.
Qed.

(** The condition text after a failed response whose body parses. *)
Lemma error_payload_text location w w' (errorData : JsonValue) :
  conditionText
    (elements (resume (fetchWeather location w)
                 (Resolved (ResponseNotOk (Json errorData))) w'))
  = match errorData with
    | JNull => or_else (Some (message (null_member_error "error"))) "Data unavailable"
    | _ =>
        match to_string (json_or (error_message_field errorData) "Weather data unavailable") with
        | inl e => or_else (Some (message e)) "Data unavailable"
        | inr shown => or_else (Some shown) "Data unavailable"
        end
    end.
Proof.
  cbn [resume fetchWeather]. unfold try_catch, fetchWeather_body, bind.
  cbn [await_fetch await_json ret]. unfold error_message_field, read_member, new_Error.
  destruct errorData; cbn [throw ret]; try reflexivity;
    match goal with
    | |- context [to_string ?v] => destruct (to_string v); reflexivity
    end.
Qed.

(** C2, as the script has it.  When the response is not a success, the
    temperature display shows [--], and the [try] block throws into the
    [catch] of [fetchWeather], which produces the result: nothing is
    thrown to the caller.  When the body parses, the condition text shows
    [error.message] exactly if that is a string and not empty; and if the
    body is not [null] and [error] or [message] is missing, or [message]
    is falsy (empty, [null], [false], zero), it shows
    [Weather data unavailable]. *)
Theorem http_error_renders_error_state location w w' body :
  let w'' := resume (fetchWeather location w) (Resolved (ResponseNotOk body)) w' in
  temperature (elements w'') = "--" /\
  (exists e,
     fetchWeather_body location (Resolved (ResponseNotOk body)) w' = Throw e w' /\
     w'' = fetchWeather_catch e w') /\
  forall errorData, body = Json errorData ->
    (forall c m,
       error_message_field errorData = Some (JString (String c m)) ->
       conditionText (elements w'') = String c m) /\
    (errorData <> JNull ->
     (error_message_field errorData = None \/
      exists falsy, error_message_field errorData = Some falsy /\ json_truthy falsy = false) ->
     conditionText (elements w'') = "Weather data unavailable").
Proof.
  cbn zeta.
  destruct (fetchWeather_failure location w w' (Resolved (ResponseNotOk body)))
    as (e & Hbody & Hsettled); [discriminate|].
  split; [rewrite Hsettled; reflexivity|]. split; [exists e; split; assumption|].
  intros errorData ->. rewrite error_payload_text. split.
  - intros c m Hfield. rewrite Hfield. destruct errorData; try reflexivity.
    cbn in Hfield. discriminate.
  - intros Hnull Hmissing. destruct errorData; [congruence| | | | |];
      (destruct Hmissing as [-> | (falsy & -> & Hfalsy)];
       [reflexivity | cbn [json_or]; rewrite Hfalsy; reflexivity]).
Qed.

(** ** Startup *)

(** Where the controller takes its queries from: the initial location is
    never empty, and a submitted search fetches only a non-empty trimmed
    value.  [fetchWeather] itself accepts any string, and a suggestion click
    passes on whatever text the clicked item has. *)
Lemma initial_lastLocation_nonempty (storage : gmap string string) :
  lastLocation (initial_state storage) <> EmptyString.
Proof.
  cbn [initial_state lastLocation].
  destruct (storage !! "lastLocation") as [[|c r]|]; discriminate.
Qed.

Lemma handleSearch_cases w :
  let location := trim (searchInput_value (elements w)) in
  (location = EmptyString /\ handleSearch w = Done w) \/
  (location <> EmptyString /\
   handleSearch w = awaited (fetchWeather location w) clearSearch).
Proof.
  cbn zeta. unfold handleSearch.
  destruct (trim (searchInput_value (elements w))) as [|c r]; cbn [truthy].
  - left. split; reflexivity.
  - right. split; [discriminate | reflexivity].
Qed.

(** C10. When the storage holds no [lastLocation], or holds the empty
    string, the initial state's [lastLocation] is [London] and the request
    issued at startup is the current-conditions request for [London]. *)
Theorem startup_defaults_to_London page body (storage : gmap string string) :
  storage !! "lastLocation" = None \/ storage !! "lastLocation" = Some EmptyString ->
  lastLocation (initial_state storage) = "London" /\
  network (suspended (initApp (load page body storage)))
  = ["https://api.weatherapi.com/v1/current.json?key=44ab26d1da7d4804a1d30908251008&q=London"].
Proof.
  intros Hstored.
  assert (lastLocation (initial_state storage) = "London") as Hlast.
  { cbn [initial_state lastLocation]. destruct Hstored as [-> | ->]; reflexivity. }
  split; [exact Hlast|].
  unfold initApp. rewrite fetchWeather_suspended.
  cbn [load state]. rewrite Hlast. reflexivity.
Qed.

(** ** Unit toggle *)

Lemma toggle_active_spec (unit : Unit) (btn : UnitButton) (c : string) :
  c ∈ classList_toggle "active" (bool_decide (dataset_unit btn = unit)) (btn_classList btn)
  <-> if decide (c = "active") then dataset_unit btn = unit else c ∈ btn_classList btn.
Proof.
  unfold classList_toggle, classList_add, classList_remove.
  destruct (decide (c = "active")) as [->|Hc];
    destruct (bool_decide_reflect (dataset_unit btn = unit));
    rewrite ?elem_of_union, ?elem_of_difference, ?elem_of_singleton; intuition congruence.
Qed.

(** C4. A unit click for a unit other than the current one, with a snapshot
    present, sets the selected unit to the clicked one, writes the rounded
    temperature of that unit taken from the snapshot already stored, and
    marks exactly the buttons of that unit active.  It passes nothing to
    [fetch], and every other field of the state, of the elements and of the
    rest of the world is as before. *)
Theorem switchUnit_only_rerenders_temperature unit w data :
  weatherData (state w) = Some data ->
  currentUnit (state w) <> unit ->
  let w' := switchUnit unit w in
  currentUnit (state w') = unit /\
  temperature (elements w')
  = number_to_string (inject_Z (Math_round
      match unit with
      | Celsius => temp_c (current data)
      | Fahrenheit => temp_f (current data)
      end)) /\
  Forall2 (fun btn btn' =>
             dataset_unit btn' = dataset_unit btn /\
             forall c, c ∈ btn_classList btn'
                       <-> if decide (c = "active") then dataset_unit btn = unit
                           else c ∈ btn_classList btn)
          (unitButtons (elements w)) (unitButtons (elements w')) /\
  network w' = network w /\
  set_currentUnit (currentUnit (state w)) (state w') = state w /\
  set_temperature (temperature (elements w))
    (set_unitButtons (unitButtons (elements w)) (elements w')) = elements w /\
  body_classList w' = body_classList w /\
  localStorage w' = localStorage w /\
  console w' = console w.
Proof.
  intros Hdata Hunit. cbn zeta. unfold switchUnit. rewrite Hdata.
  rewrite bool_decide_eq_false_2 by exact Hunit.
  destruct w as [[cu ll wd] els bcl ls net con]. cbn in Hdata, Hunit |- *.
  split; [reflexivity|]. split; [destruct unit; reflexivity|].
  split.
  { apply Forall2_fmap_r, Forall2_same_length_lookup. split; [reflexivity|].
    intros i btn btn' Hi Hi'. rewrite Hi in Hi'. injection Hi' as <-.
    split; [reflexivity|]. intros c. apply toggle_active_spec. }
  repeat (split; [reflexivity|]).
  split; [destruct els; reflexivity|]. repeat split; reflexivity.
Qed.

(** ** Search input *)

Lemma shown_after_add (s : gset string) : "show" ∈ classList_add "show" s.
Proof. unfold classList_add. apply elem_of_union_l, elem_of_singleton. reflexivity. Qed.

Lemma not_shown_after_remove (s : gset string) : "show" ∉ classList_remove "show" s.
Proof.
  unfold classList_remove. rewrite elem_of_difference, elem_of_singleton. tauto.
Qed.

Lemma handleInput_short w :
  String.length (trim (searchInput_value (elements w))) < 2 ->
  handleInput w = Done (hideSuggestions w).
Proof.
  intros Hlen. unfold handleInput.
  destruct (Nat.ltb_spec (String.length (trim (searchInput_value (elements w)))) 2);
    [reflexivity | lia].
Qed.

Lemma handleInput_long w :
  2 <= String.length (trim (searchInput_value (elements w))) ->
  handleInput w
  = Await (fetch (search_url (trim (searchInput_value (elements w)))) w)
          (fun o => try_catch (handleInput_body o) handleInput_catch).
Proof.
  intros Hlen. unfold handleInput.
  destruct (Nat.ltb_spec (String.length (trim (searchInput_value (elements w)))) 2);
    [lia | reflexivity].
Qed.

Lemma handleInput_failure o w' :
  (forall suggestions, o <> Resolved (ResponseOk (Json suggestions))) ->
  exists e, try_catch (handleInput_body o) handleInput_catch w' = handleInput_catch e w'.
Proof.
  intros Hfail. unfold try_catch, handleInput_body, bind.
  destruct o as [e|[[e|suggestions]|body]]; cbn; eauto.
  exfalso. eapply Hfail. reflexivity.
Qed.

(** C6. With [query] the trimmed value of the search field: if [query] is
    shorter than 2 the handler hides the suggestion list and passes nothing
    to [fetch].  Otherwise it requests the suggestions for [query] and
    changes nothing else; when they arrive, the list's markup is one item
    per entry of the first five, in the order received, or the single item
    [No results found] when there is none, and the list is shown; when the
    request fails in any way, the list is hidden, the error is logged, and
    every element is otherwise left as it was. *)
Theorem handleInput_suggestions w :
  let query := trim (searchInput_value (elements w)) in
  (String.length query < 2 ->
   handleInput w = Done (hideSuggestions w) /\
   network (hideSuggestions w) = network w /\
   ("show" ∉ suggestions_classList (elements (hideSuggestions w)))) /\
  (2 <= String.length query ->
   network (suspended (handleInput w)) = (network w ++ [search_url query])%list /\
   set_network (network w) (suspended (handleInput w)) = w /\
   forall w',
     (forall suggestions,
        let w'' := resume (handleInput w) (Resolved (ResponseOk (Json suggestions))) w' in
        let shown := take 5 (default [] suggestions) in
        length shown <= 5 /\
        suggestions_innerHTML (elements w'')
        = match shown with
          | [] => suggestion_item "No results found"
          | _ => String.concat EmptyString
                   (map (fun item => suggestion_item (sg_name item +:+ ", " +:+ sg_country item))
                        shown)
          end /\
        "show" ∈ suggestions_classList (elements w'')) /\
     (forall o,
        (forall suggestions, o <> Resolved (ResponseOk (Json suggestions))) ->
        let w'' := resume (handleInput w) o w' in
        elements w'' = elements (hideSuggestions w') /\
        ("show" ∉ suggestions_classList (elements w'')) /\
        state w'' = state w' /\
        network w'' = network w' /\
        exists e, console w'' = (console w' ++ [("Suggestions error:", e)])%list)).
Proof.
  cbn zeta. split.
  - intros Hlen. split; [apply handleInput_short, Hlen|]. split; [reflexivity|].
    apply not_shown_after_remove.
  - intros Hlen. rewrite (handleInput_long w Hlen). cbn [suspended resume].
    split; [reflexivity|]. split; [destruct w; reflexivity|].
    intros w'. split.
    + intros suggestions. split; [rewrite length_take; lia|].
      destruct suggestions as [[|item rest]|]; cbn;
        split; try reflexivity; apply shown_after_add.
    + intros o Hfail. destruct (handleInput_failure o w' Hfail) as (e & ->).
      split; [reflexivity|]. split; [apply not_shown_after_remove|].
      split; [reflexivity|]. split; [reflexivity|]. exists e. reflexivity.
Qed.

(** ** Suggestion markup and the nodes it denotes *)

Lemma append_nil (s : string) : EmptyString +:+ s = s.
Proof. reflexivity. Qed.

Lemma append_cons (c : ascii) (s t : string) : String c s +:+ t = String c (s +:+ t).
Proof. reflexivity. Qed.

Lemma append_empty_r (s : string) : s +:+ EmptyString = s.
Proof.
  induction s as [|c s IH]; [reflexivity | exact (f_equal (String c) IH)].
Qed.

Lemma append_assoc (s t u : string) : (s +:+ t) +:+ u = s +:+ (t +:+ u).
Proof.
  induction s as [|c s IH]; [reflexivity | exact (f_equal (String c) IH)].
Qed.

Lemma length_append (s t : string) :
  String.length (s +:+ t) = String.length s + String.length t.
Proof.
  induction s as [|c s IH]; [reflexivity|].
  rewrite append_cons. cbn [String.length]. rewrite IH. reflexivity.
Qed.

Lemma concat_cons (x : string) (l : list string) :
  String.concat EmptyString (x :: l) = x +:+ String.concat EmptyString l.
Proof. destruct l; [symmetry; apply append_empty_r | reflexivity]. Qed.

Lemma strip_prefix_app p s : strip_prefix p (p +:+ s) = Some s.
Proof.
  induction p as [|a p IH]; [reflexivity|].
  rewrite append_cons. cbn [strip_prefix].
  rewrite bool_decide_eq_true_2 by reflexivity. exact IH.
Qed.

Lemma split_at_app c u v :
  split_at c u = None -> split_at c (u +:+ String c v) = Some (u, v).
Proof.
  induction u as [|a u IH]; rewrite ?append_nil, ?append_cons; cbn [split_at]; intros Hu.
  - rewrite bool_decide_eq_true_2 by reflexivity. reflexivity.
  - destruct (bool_decide (a = c)); [discriminate|].
    destruct (split_at c u) as [[u1 u2]|]; [discriminate|].
    rewrite IH by reflexivity. reflexivity.
Qed.

Lemma option_bind_some {A B} (x : A) (f : A -> option B) : (Some x ≫= f) = f x.
Proof. reflexivity. Qed.

Lemma parse_divs_step fuel s :
  s <> EmptyString ->
  parse_divs (S fuel) s
  = (s ← strip_prefix ("<div class=" +:+ String dquote EmptyString) s;
     '(cls, s) ← split_at dquote s;
     s ← strip_prefix ">" s;
     '(txt, s) ← split_at "<"%char s;
     s ← strip_prefix "/div>" s;
     rest ← parse_divs fuel s;
     Some ({| classList := list_to_set (class_tokens EmptyString cls);
              textContent := txt |} :: rest)).
Proof. destruct s; [congruence | reflexivity]. Qed.

Lemma suggestion_item_shape t rest :
  suggestion_item t +:+ rest
  = ("<div class=" +:+ String dquote EmptyString) +:+
    ("suggestion-item" +:+ String dquote (">" +:+ (t +:+ String "<"%char ("/div>" +:+ rest)))).
Proof. unfold suggestion_item. rewrite !append_assoc. reflexivity. Qed.

Lemma parse_divs_item fuel t rest :
  split_at "<"%char t = None ->
  parse_divs (S fuel) (suggestion_item t +:+ rest)
  = (nodes ← parse_divs fuel rest; Some (item_node t :: nodes)).
Proof.
  intros Ht. rewrite suggestion_item_shape.
  rewrite parse_divs_step by discriminate.
  rewrite strip_prefix_app, option_bind_some.
  rewrite (split_at_app dquote "suggestion-item") by reflexivity.
  rewrite option_bind_some. cbv beta iota.
  rewrite strip_prefix_app, option_bind_some.
  rewrite (split_at_app "<"%char t) by exact Ht.
  rewrite option_bind_some. cbv beta iota.
  rewrite strip_prefix_app, option_bind_some.
  reflexivity.
Qed.

Lemma length_items (texts : list string) :
  length texts <= String.length (String.concat EmptyString (map suggestion_item texts)).
Proof.
  induction texts as [|t texts IH]; [cbn; lia|].
  cbn [map length]. rewrite concat_cons, length_append.
  unfold suggestion_item at 1. rewrite append_cons. cbn [String.length]. lia.
Qed.

(** Reading back the markup of a list of items gives one node per item, in
    order, each of class [suggestion-item], when no text contains [<]. *)
Lemma children_of_items (texts : list string) :
  Forall (fun t => split_at "<"%char t = None) texts ->
  children_of (String.concat EmptyString (map suggestion_item texts)) = Some (map item_node texts).
Proof.
  intros Hclean. unfold children_of.
  assert (forall fuel, length texts <= fuel ->
          parse_divs fuel (String.concat EmptyString (map suggestion_item texts))
          = Some (map item_node texts)) as Hparse.
  { induction Hclean as [|t texts Ht Hclean IH]; intros fuel Hfuel.
    - destruct fuel; reflexivity.
    - destruct fuel as [|fuel]; [cbn in Hfuel; lia|].
      cbn [map]. rewrite concat_cons, parse_divs_item by exact Ht.
      rewrite IH by (cbn in Hfuel; lia). reflexivity. }
  apply Hparse, length_items.
Qed.

Lemma showSuggestions_markup suggestions w :
  suggestions_innerHTML (elements (showSuggestions suggestions w))
  = match take 5 (default [] suggestions) with
    | [] => suggestion_item "No results found"
    | shown => String.concat EmptyString
                 (map (fun item => suggestion_item (sg_name item +:+ ", " +:+ sg_country item))
                      shown)
    end.
Proof. destruct suggestions as [[|item rest]|]; reflexivity. Qed.

(** C9. When the search endpoint returns the empty list, the suggestion
    list has one child: the [No results found] placeholder, of class
    [suggestion-item], the class of every child rendered for real
    suggestions.  A click on the placeholder therefore takes the branch of
    a suggestion click: it passes the current-conditions request for the
    query [No results found] to [fetch] and clears the search. *)
Theorem placeholder_click_fetches_placeholder_text w w' :
  2 <= String.length (trim (searchInput_value (elements w))) ->
  let shown := resume (handleInput w) (Resolved (ResponseOk (Json (Some [])))) w' in
  let placeholder := item_node "No results found" in
  children_of (suggestions_innerHTML (elements shown)) = Some [placeholder] /\
  (forall (suggestions : list SearchSuggestion) w0,
     suggestions <> [] ->
     Forall (fun item => split_at "<"%char (sg_name item +:+ ", " +:+ sg_country item) = None)
            suggestions ->
     exists nodes,
       children_of (suggestions_innerHTML (elements (showSuggestions (Some suggestions) w0)))
       = Some nodes /\
       Forall (fun node => classList node = classList placeholder) nodes) /\
  forall w1,
    handleSuggestionClick placeholder w1
    = detached (fetchWeather "No results found" w1) clearSearch /\
    network (suspended (handleSuggestionClick placeholder w1))
    = (network w1 ++
       ["https://api.weatherapi.com/v1/current.json?key=44ab26d1da7d4804a1d30908251008&q=No%20results%20found"])%list.
Proof.
  intros Hlen. cbn zeta. rewrite (handleInput_long w Hlen). cbn [resume].
  split; [|split].
  - change (try_catch _ _ w') with (showSuggestions (Some []) w').
    rewrite showSuggestions_markup. cbn [default take].
    apply (children_of_items ["No results found"]).
    repeat constructor.
  - intros suggestions w0 Hne Hclean. rewrite showSuggestions_markup.
    change (default [] (Some suggestions)) with suggestions.
    assert (take 5 suggestions <> []) as Hshown by (destruct suggestions; [congruence | discriminate]).
    destruct (take 5 suggestions) as [|item shown] eqn:Htake; [congruence|].
    cbv beta iota. rewrite <- Htake.
    rewrite <- (map_map (fun item => sg_name item +:+ ", " +:+ sg_country item) suggestion_item).
    eexists. split.
    + apply children_of_items. apply Forall_map, Forall_take, Hclean.
    + apply Forall_map, Forall_map, Forall_true. reflexivity.
  - intros w1.
    assert (handleSuggestionClick (item_node "No results found") w1
            = detached (fetchWeather "No results found" w1) clearSearch) as Hclick.
    { unfold handleSuggestionClick, classList_contains.
      rewrite bool_decide_eq_true_2; [reflexivity|].
      cbn [item_node classList]. apply elem_of_singleton_2. reflexivity. }
    split; [exact Hclick|]. rewrite Hclick. reflexivity.
Qed.

End Properties.

(** ** Debounce *)

Section DebounceProperties.
Import Debounce.
Context {A : Type}.
Variable delay : nat.
Implicit Types (l : Loop (A := A)) (trace : list (nat * A)).

Lemma single_slot_init now0 id0 : single_slot (init (A := A) now0 id0).
Proof. left. reflexivity. Qed.

Lemma single_slot_advance t l : single_slot l -> single_slot (advance t l).
Proof.
  intros [Hnone | (tm & Hone & Hhandle)]; unfold single_slot, advance; cbn [timers timeout].
  - left. rewrite Hnone. reflexivity.
  - rewrite Hone, filter_cons, filter_nil.
    destruct (decide (now l `max` t < due tm)); [right; eauto | left; reflexivity].
Qed.

Lemma clearTimeout_single_slot l :
  single_slot l -> timers (clearTimeout (timeout l) l) = [].
Proof.
  intros [Hnone | (tm & Hone & Hhandle)].
  - destruct (timeout l); cbn [clearTimeout timers]; rewrite Hnone; reflexivity.
  - rewrite Hhandle. cbn [clearTimeout timers]. rewrite Hone, filter_cons, filter_nil.
    destruct (decide (timer_id tm <> timer_id tm)); [congruence | reflexivity].
Qed.

Lemma clearTimeout_frame handle l :
  now (clearTimeout handle l) = now l /\
  next_id (clearTimeout handle l) = next_id l /\
  calls (clearTimeout handle l) = calls l.
Proof. destruct handle; repeat split; reflexivity. Qed.

(** After an invocation the table holds the new timer and nothing else. *)
Lemma debounced_single_slot args l :
  single_slot l ->
  timers (debounced delay args l)
  = [{| timer_id := next_id l; due := now l + delay; timer_args := args |}] /\
  timeout (debounced delay args l) = Some (next_id l) /\
  now (debounced delay args l) = now l /\
  calls (debounced delay args l) = calls l.
Proof.
  intros Hslot. unfold debounced, setTimeout. cbn [timers timeout now calls next_id].
  rewrite (clearTimeout_single_slot l Hslot).
  destruct (clearTimeout_frame (timeout l) l) as (-> & -> & ->).
  repeat split; reflexivity.
Qed.

Lemma single_slot_run trace l : single_slot l -> single_slot (run delay trace l).
Proof.
  revert l. induction trace as [|[t args] trace IH]; intros l Hslot; [exact Hslot|].
  cbn [run]. apply IH. right.
  destruct (debounced_single_slot args (advance t l) (single_slot_advance t l Hslot))
    as (Htimers & Hhandle & _).
  eexists. split; [exact Htimers | exact Hhandle].
Qed.

Lemma single_slot_length l : single_slot l -> length (timers l) <= 1.
Proof. intros [-> | (tm & -> & _)]; cbn; lia. Qed.

Lemma armed_single_slot t args l : armed delay t args l -> single_slot l.
Proof. intros (_ & _ & id & Htimers & Hhandle). right. eexists. split; [exact Htimers | exact Hhandle]. Qed.

(** An armed timer survives any time before it is due, without a call. *)
Lemma armed_advance_early t args l T :
  armed delay t args l -> t <= T -> T < t + delay ->
  timers (advance T l) = timers l /\ calls (advance T l) = [] /\
  timeout (advance T l) = timeout l /\ now (advance T l) = T.
Proof.
  intros (Hnow & Hcalls & id & Htimers & Hhandle) Hle HT.
  unfold advance. cbn [timers calls timeout now].
  rewrite Hnow, Hcalls, Htimers, !filter_cons, !filter_nil. cbn [due].
  replace (t `max` T) with T by lia.
  destruct (decide (T < t + delay)); [|lia].
  destruct (decide (t + delay <= T)); [lia|].
  repeat split; reflexivity.
Qed.

(** Once due, it fires: one call, with its arguments, and the table is empty. *)
Lemma armed_advance_due t args l T :
  armed delay t args l -> t + delay <= T ->
  timers (advance T l) = [] /\ calls (advance T l) = [(T, args)].
Proof.
  intros (Hnow & Hcalls & id & Htimers & Hhandle) HT.
  unfold advance. cbn [timers calls].
  rewrite Hnow, Hcalls, Htimers, !filter_cons, !filter_nil. cbn [due].
  replace (t `max` T) with T by lia.
  destruct (decide (T < t + delay)); [lia|].
  destruct (decide (t + delay <= T)); [|lia].
  split; reflexivity.
Qed.

Lemma armed_debounced t args l :
  single_slot l -> now l = t -> calls l = [] -> armed delay t args (debounced delay args l).
Proof.
  intros Hslot Hnow Hcalls.
  destruct (debounced_single_slot args l Hslot) as (Htimers & Hhandle & Hnow' & Hcalls').
  split; [congruence|]. split; [congruence|].
  exists (next_id l). rewrite <- Hnow. split; [exact Htimers | exact Hhandle].
Qed.

(** Along a rapid trace the loop stays armed with the latest invocation. *)
Lemma armed_run trace t args l :
  armed delay t args l -> rapid delay t trace ->
  armed delay (fst (final (t, args) trace)) (snd (final (t, args) trace)) (run delay trace l).
Proof.
  revert t args l. induction trace as [|[t1 args1] trace IH]; intros t args l Harmed Hrapid.
  - exact Harmed.
  - destruct Hrapid as (Hle & Hlt & Hrapid). cbn [run final].
    apply IH; [|exact Hrapid].
    destruct (armed_advance_early t args l t1 Harmed Hle Hlt)
      as (Htimers & Hcalls & Hhandle & Hnow).
    apply armed_debounced.
    + apply single_slot_advance, (armed_single_slot t args), Harmed.
    + exact Hnow.
    + exact Hcalls.
Qed.

(** C5. Take any run of invocations of the wrapped action in which every
    invocation follows the previous one by less than [delay].  Until
    [delay] has passed since the last invocation the action has not run
    and one timer is pending; at any time from then on the action has run
    exactly once, with the arguments of the last invocation, and never runs
    again.  At every point of the run, and at any time after it, at most
    one timer is pending. *)
Theorem debounce_runs_once_with_last_arguments
    (now0 id0 t0 : nat) (args0 : A) (rest : list (nat * A)) :
  now0 <= t0 ->
  rapid delay t0 rest ->
  let start := init now0 id0 in
  let l := run delay ((t0, args0) :: rest) start in
  let t_last := fst (final (t0, args0) rest) in
  let args_last := snd (final (t0, args0) rest) in
  calls l = [] /\
  (forall T, t_last <= T -> T < t_last + delay ->
     calls (advance T l) = [] /\ length (timers (advance T l)) = 1) /\
  (forall T, t_last + delay <= T ->
     calls (advance T l) = [(T, args_last)] /\
     timers (advance T l) = [] /\
     forall T', calls (advance T' (advance T l)) = [(T, args_last)]) /\
  (forall k T,
     length (timers (advance T (run delay (take k ((t0, args0) :: rest)) start))) <= 1).
Proof.
  intros Hstart Hrapid. cbn zeta.
  assert (armed delay (fst (final (t0, args0) rest)) (snd (final (t0, args0) rest))
            (run delay ((t0, args0) :: rest) (init now0 id0))) as Harmed.
  { cbn [run]. apply armed_run; [|exact Hrapid].
    apply armed_debounced.
    - apply single_slot_advance, single_slot_init.
    - cbn. lia.
    - reflexivity. }
  split; [apply Harmed|]. split; [|split].
  - intros T Hle HT.
    destruct (armed_advance_early _ _ _ T Harmed Hle HT) as (Htimers & Hcalls & _).
    split; [exact Hcalls|]. rewrite Htimers.
    destruct Harmed as (_ & _ & id & -> & _). reflexivity.
  - intros T HT. destruct (armed_advance_due _ _ _ T Harmed HT) as (Htimers & Hcalls).
    split; [exact Hcalls|]. split; [exact Htimers|].
    intros T'. unfold advance at 1. cbn [calls]. rewrite Htimers, Hcalls. reflexivity.
  - intros k T. apply single_slot_length, single_slot_advance, single_slot_run, single_slot_init.
Qed.

End DebounceProperties.

(** * The properties at concrete inputs *)



(** C2: with an empty [error.message] in the payload the condition text is
    not that message but the fallback; and with the body [null] it is the
    engine's message for reading a property of [null], which is neither a
    message of the payload nor one of the script's fallback strings. *)
Lemma error_payload_counterexample :
  let empty := JObject [("error", JObject [("message", JString EmptyString)])] in
  let shown_empty :=
    conditionText
      (elements (run_to_end (fetchWeather (host := Sample.host) "Atlantis" Sample.fresh)
                   (Resolved (ResponseNotOk (Json empty))))) in
  let shown_null :=
    conditionText
      (elements (run_to_end (fetchWeather (host := Sample.host) "Atlantis" Sample.fresh)
                   Sample.null_body)) in
  error_message_field empty = Some (JString EmptyString) /\
  shown_empty = "Weather data unavailable" /\
  shown_empty <> EmptyString /\
  shown_null = "Cannot read properties of null (reading 'error')" /\
  shown_null <> "Weather data unavailable" /\
  shown_null <> "Data unavailable".
Proof.
  cbn zeta. split; [reflexivity|]. split; [reflexivity|]. split; [discriminate|].
  split; [reflexivity|]. split; discriminate.
Qed.

Lemma http_error_renders_error_state_witness :
  let errorData :=
    JObject [("error", JObject [("code", JNumber 1006);
                                 ("message", JString "No matching location found.")])] in
  let missing := JObject [("error", JObject [("code", JNumber 1006)])] in
  error_message_field errorData = Some (JString "No matching location found.") /\
  conditionText
    (elements (resume (fetchWeather (host := Sample.host) "Atlantis" Sample.fresh)
                 (Resolved (ResponseNotOk (Json errorData))) Sample.fresh))
  = "No matching location found." /\
  missing <> JNull /\
  error_message_field missing = None /\
  conditionText
    (elements (resume (fetchWeather (host := Sample.host) "Atlantis" Sample.fresh)
                 (Resolved (ResponseNotOk (Json missing))) Sample.fresh))
  = "Weather data unavailable".
Proof.
  cbn zeta.
  split; [reflexivity|]. split.
  - destruct (http_error_renders_error_state (host := Sample.host) "Atlantis"
                Sample.fresh Sample.fresh
                (Json (JObject [("error", JObject [("code", JNumber 1006);
                                                   ("message",
                                                    JString "No matching location found.")])])))
      as (_ & _ & Htext).
    destruct (Htext _ eq_refl) as (Hmessage & _).
    apply (Hmessage "N"%char "o matching location found."). reflexivity.
  - split; [discriminate|]. split; [reflexivity|].
    destruct (http_error_renders_error_state (host := Sample.host) "Atlantis"
                Sample.fresh Sample.fresh
                (Json (JObject [("error", JObject [("code", JNumber 1006)])])))
      as (_ & _ & Htext).
    destruct (Htext _ eq_refl) as (_ & Hfallback).
    apply Hfallback; [discriminate | left; reflexivity].
Defined.

(** C3: with the storage full, a successful fetch for Paris leaves
    [lastLocation] set in memory but not in storage, and a fresh startup
    fetches London, not Paris. *)
Lemma storage_full_location_counterexample :
  let w := run_to_end (fetchWeather (host := Sample.full_host) "Paris" Sample.fresh)
             Sample.success in
  let boot := load Sample.page ∅ (localStorage w) in
  lastLocation (state w) = "Paris" /\
  localStorage w !! "lastLocation" = None /\
  network (suspended (initApp (host := Sample.full_host) boot)) = [current_url "London"] /\
  network (suspended (initApp (host := Sample.full_host) boot)) <> [current_url "Paris"].
Proof.
  cbn zeta. split; [reflexivity|]. split; [reflexivity|].
  split; [reflexivity | discriminate].
Qed.

(** Why the startup part of C3 asks for a non-empty query: were
    [fetchWeather] called with the empty string, the stored empty string
    would make the next startup fall back to London. *)
Remark empty_query_startup :
  let w := run_to_end (fetchWeather (host := Sample.host) EmptyString Sample.fresh) Sample.success in
  let boot := load Sample.page ∅ (localStorage w) in
  localStorage w !! "lastLocation" = Some EmptyString /\
  network (suspended (initApp (host := Sample.host) boot)) = [current_url "London"].
Proof. cbn zeta. split; reflexivity. Qed.

Lemma successful_fetch_persists_location_witness :
  let w := resume (fetchWeather (host := Sample.host) "Paris" Sample.fresh)
             Sample.success Sample.fresh in
  setItem_error (Host := Sample.host) (localStorage Sample.fresh) "lastLocation" "Paris" = None /\
  "Paris" <> EmptyString /\
  localStorage w !! "lastLocation" = Some "Paris" /\
  network (suspended (initApp (host := Sample.host) (load Sample.page ∅ (localStorage w))))
  = [current_url "Paris"].
Proof.
  cbn zeta.
  assert (setItem_error (Host := Sample.host) (localStorage Sample.fresh)
            "lastLocation" "Paris" = None) as Hstored by reflexivity.
  destruct (successful_fetch_persists_location (host := Sample.host)
              "Paris" Sample.fresh Sample.fresh Sample.paris Sample.page ∅ Hstored)
    as (_ & Hsaved & Hboot).
  split; [exact Hstored|]. split; [discriminate|]. split; [exact Hsaved|].
  apply Hboot. discriminate.
Defined.

Lemma switchUnit_only_rerenders_temperature_witness :
  weatherData (state Sample.shown_paris) = Some Sample.paris /\
  currentUnit (state Sample.shown_paris) <> Fahrenheit /\
  network (switchUnit (host := Sample.host) Fahrenheit Sample.shown_paris)
  = network Sample.shown_paris /\
  currentUnit (state (switchUnit (host := Sample.host) Fahrenheit Sample.shown_paris))
  = Fahrenheit.
Proof.
  assert (weatherData (state Sample.shown_paris) = Some Sample.paris) as Hdata
    by reflexivity.
  assert (currentUnit (state Sample.shown_paris) <> Fahrenheit) as Hunit
    by discriminate.
  destruct (switchUnit_only_rerenders_temperature (host := Sample.host)
              Fahrenheit Sample.shown_paris Sample.paris Hdata Hunit)
    as (Hcurrent & _ & _ & Hnetwork & _).
  split; [exact Hdata|]. split; [exact Hunit|]. split; [exact Hnetwork | exact Hcurrent].
Defined.

Lemma debounce_runs_once_with_last_arguments_witness :
  let rest := [(120, "Lo"); (400, "Lon")] in
  0 <= 0 /\
  Debounce.rapid 300 0 rest /\
  Debounce.calls
    (Debounce.advance 700 (Debounce.run 300 ((0, "L") :: rest) (Debounce.init 0 1)))
  = [(700, "Lon")].
Proof.
  cbn zeta.
  assert (Debounce.rapid 300 0 [(120, "Lo"); (400, "Lon")]) as Hrapid
    by (cbn; lia).
  destruct (debounce_runs_once_with_last_arguments 300 0 1 0 "L"
              [(120, "Lo"); (400, "Lon")] (Nat.le_refl 0) Hrapid)
    as (_ & _ & Hdue & _).
  split; [lia|]. split; [exact Hrapid|].
  apply (Hdue 700). cbn. lia.
Defined.

Lemma handleInput_suggestions_witness :
  String.length (trim (searchInput_value (elements (Sample.typed " T ")))) < 2 /\
  2 <= String.length (trim (searchInput_value (elements (Sample.typed " Tokyo ")))) /\
  handleInput (Sample.typed " T ") = Done (hideSuggestions (Sample.typed " T ")) /\
  network (suspended (handleInput (Sample.typed " Tokyo ")))
  = [search_url "Tokyo"].
Proof.
  assert (String.length (trim (searchInput_value (elements (Sample.typed " T ")))) < 2)
    as Hshort by (vm_compute; lia).
  assert (2 <= String.length (trim (searchInput_value (elements (Sample.typed " Tokyo ")))))
    as Hlong by (vm_compute; lia).
  split; [exact Hshort|]. split; [exact Hlong|]. split.
  - apply (handleInput_suggestions (Sample.typed " T ")). exact Hshort.
  - apply (handleInput_suggestions (Sample.typed " Tokyo ")). exact Hlong.
Defined.

Lemma failed_fetch_keeps_state_witness :
  (forall data, Sample.offline <> Resolved (ResponseOk (Json data))) /\
  let w := resume (fetchWeather (host := Sample.host) "Lyon" Sample.shown_paris)
             Sample.offline Sample.shown_paris in
  state w = state Sample.shown_paris /\
  localStorage w = localStorage Sample.shown_paris.
Proof.
  assert (forall data, Sample.offline <> Resolved (ResponseOk (Json data))) as Hfail
    by (intros data; discriminate).
  destruct (failed_fetch_keeps_state (host := Sample.host)
              "Lyon" Sample.shown_paris Sample.shown_paris Sample.offline Hfail)
    as (_ & _ & Hstate & Hstorage & _).
  split; [exact Hfail|]. split; [exact Hstate | exact Hstorage].
Defined.

Lemma placeholder_click_fetches_placeholder_text_witness :
  2 <= String.length (trim (searchInput_value (elements (Sample.typed "Xq")))) /\
  children_of
    (suggestions_innerHTML
       (elements (run_to_end (handleInput (Sample.typed "Xq"))
                    (Resolved (ResponseOk (Json (Some [])))))))
  = Some [item_node "No results found"] /\
  exists nodes,
    children_of
      (suggestions_innerHTML (elements (showSuggestions (Some Sample.tokyo) Sample.fresh)))
    = Some nodes /\
    Forall (fun node => classList node = classList (item_node "No results found")) nodes.
Proof.
  assert (2 <= String.length (trim (searchInput_value (elements (Sample.typed "Xq")))))
    as Hlong by (vm_compute; lia).
  destruct (placeholder_click_fetches_placeholder_text (host := Sample.host)
              (Sample.typed "Xq") (suspended (handleInput (Sample.typed "Xq"))) Hlong)
    as (Hplaceholder & Hitems & _).
  split; [exact Hlong|]. split; [exact Hplaceholder|].
  apply Hitems; [discriminate | repeat constructor].
Defined.

Lemma startup_defaults_to_London_witness :
  ((∅ : gmap string string) !! "lastLocation" = None
   \/ (∅ : gmap string string) !! "lastLocation" = Some EmptyString) /\
  lastLocation (initial_state ∅) = "London".
Proof.
  assert ((∅ : gmap string string) !! "lastLocation" = None
          \/ (∅ : gmap string string) !! "lastLocation" = Some EmptyString) as Hstored
    by (left; reflexivity).
  split; [exact Hstored|].
  apply (startup_defaults_to_London (host := Sample.host) Sample.page ∅ ∅ Hstored).
Defined.

(** * Further properties of the script *)

Section Rendering.
Context {host : Host}.

(** What [updateUI] and [storeLocation] leave behind, field by field, when
    the storage write goes through. *)
Lemma fetchWeather_success_fields query w w' data :
  setItem_error (localStorage w') "lastLocation" query = None ->
  let w'' := resume (fetchWeather query w) (Resolved (ResponseOk (Json data))) w' in
  let c := current data in
  state w'' = {| currentUnit := currentUnit (state w'); lastLocation := query;
                 weatherData := Some data |} /\
  localStorage w'' = <["lastLocation" := query]> (localStorage w') /\
  network w'' = network w' /\
  console w'' = console w' /\
  body_classList w''
  = classList_toggle "night-mode" (number_not (is_day c)) (body_classList w') /\
  elements w''
  = {| temperature :=
         number_to_string (inject_Z (Math_round (temp_of (currentUnit (state w')) c)));
       location_text := loc_name (location data) +:+ ", " +:+ loc_country (location data);
       time_text := toLocaleTimeString (localtime (location data));
       date_text := toLocaleDateString (localtime (location data));
       conditionIcon_src := "https:" +:+ icon (condition c);
       conditionIcon_alt := text (condition c);
       conditionText := text (condition c);
       windSpeed := number_to_string (wind_kph c) +:+ " km/h";
       windDir := wind_dir c;
       humidity_text := number_to_string (humidity c) +:+ "%";
       pressure := number_to_string (pressure_mb c) +:+ " hPa";
       visibility := number_to_string (vis_km c) +:+ " km";
       searchInput_value := searchInput_value (elements w');
       suggestions_innerHTML := suggestions_innerHTML (elements w');
       suggestions_classList := suggestions_classList (elements w');
       unitButtons :=
         map (fun btn =>
                set_btn_classList
                  (classList_toggle "active"
                     (bool_decide (dataset_unit btn = currentUnit (state w')))
                     (btn_classList btn)) btn)
             (unitButtons (elements w')) |}.
Proof.
  intros Hstored. cbn zeta. rewrite fetchWeather_success, Hstored.
  pose proof (render_fields data w') as Hrendered. cbn zeta in Hrendered.
  revert Hrendered. generalize (render data w').
  intros r (Hstate & Hstorage & Hnetwork & Hconsole & Hbody & Hels).
  cbn [set_localStorage on_state set_state state elements localStorage network console
       body_classList].
  rewrite Hstate, Hnetwork, Hconsole, Hbody, Hels. repeat split; reflexivity.
Qed.

(** What a successful response leaves behind whether or not the storage
    write goes through: the [catch] rewrites the temperature and the
    condition text only. *)
Lemma fetchWeather_success_always query w w' data :
  let w'' := resume (fetchWeather query w) (Resolved (ResponseOk (Json data))) w' in
  state w'' = {| currentUnit := currentUnit (state w'); lastLocation := query;
                 weatherData := Some data |} /\
  network w'' = network w' /\
  body_classList w'' = body_classList (render data w') /\
  exists t c,
    elements w'' = set_conditionText c (set_temperature t (elements (render data w'))).
Proof.
  cbn zeta. rewrite fetchWeather_success.
  pose proof (render_fields data w') as Hrendered. cbn zeta in Hrendered.
  revert Hrendered. generalize (render data w').
  intros r (Hstate & _ & Hnetwork & _ & _ & _).
  destruct (setItem_error (localStorage w') "lastLocation" query) as [e|].
  - cbn [fetchWeather_catch showErrorState console_error on_elements on_state set_elements
         set_state set_console state network body_classList elements].
    rewrite Hstate, Hnetwork. repeat split; try reflexivity.
    eexists _, _. reflexivity.
  - cbn [set_localStorage on_state set_state state network body_classList elements].
    rewrite Hstate, Hnetwork. repeat split; try reflexivity.
    exists (temperature (elements r)), (conditionText (elements r)).
    destruct (elements r). reflexivity.
Qed.

(** X1. When a fetch succeeds and the storage write that follows the
    render does not throw, every text of the weather card is the new
    snapshot's: the label [name, country], the host's time and date of
    [localtime], the condition text (also as the icon's alternative text),
    the wind speed, humidity, pressure and visibility with their units, and
    the wind direction.  Nothing of the loading display is left. *)
Theorem fetch_success_renders_snapshot query w w' data :
  setItem_error (localStorage w') "lastLocation" query = None ->
  let e := elements (resume (fetchWeather query w) (Resolved (ResponseOk (Json data))) w') in
  let c := current data in
  location_text e = loc_name (location data) +:+ ", " +:+ loc_country (location data) /\
  time_text e = toLocaleTimeString (localtime (location data)) /\
  date_text e = toLocaleDateString (localtime (location data)) /\
  conditionText e = text (condition c) /\
  conditionIcon_alt e = text (condition c) /\
  windSpeed e = number_to_string (wind_kph c) +:+ " km/h" /\
  windDir e = wind_dir c /\
  humidity_text e = number_to_string (humidity c) +:+ "%" /\
  pressure e = number_to_string (pressure_mb c) +:+ " hPa" /\
  visibility e = number_to_string (vis_km c) +:+ " km".
Proof.
  intros Hstored. cbn zeta.
  destruct (fetchWeather_success_fields query w w' data Hstored)
    as (_ & _ & _ & _ & _ & ->).
  repeat split; reflexivity.
Qed.

(** X2. After a successful fetch the page body carries the class
    [night-mode] exactly when the snapshot's [is_day] is zero; every other
    class of the body is as before. *)
Theorem fetch_success_night_mode query w w' data (c : string) :
  let w'' := resume (fetchWeather query w) (Resolved (ResponseOk (Json data))) w' in
  c ∈ body_classList w''
  <-> if decide (c = "night-mode") then (is_day (current data) == 0)%Q
      else c ∈ body_classList w'.
Proof.
  cbn zeta.
  destruct (fetchWeather_success_always query w w' data) as (_ & _ & -> & _).
  destruct (render_fields data w') as (_ & _ & _ & _ & -> & _).
  unfold classList_toggle, classList_add, classList_remove, number_not.
  pose proof (Qeq_bool_iff (is_day (current data)) 0) as Hzero.
  destruct (decide (c = "night-mode")) as [->|Hc];
    destruct (Qeq_bool (is_day (current data)) 0);
    rewrite ?elem_of_union, ?elem_of_difference, ?elem_of_singleton;
    intuition congruence.
Qed.

(** X3. After a successful fetch a unit button is marked [active] exactly
    when its unit is the selected one; the buttons keep their units, their
    order and their other classes. *)
Theorem fetch_success_marks_selected_unit query w w' data :
  let w'' := resume (fetchWeather query w) (Resolved (ResponseOk (Json data))) w' in
  Forall2 (fun btn btn' =>
             dataset_unit btn' = dataset_unit btn /\
             forall c, c ∈ btn_classList btn'
                       <-> if decide (c = "active")
                           then dataset_unit btn = currentUnit (state w'')
                           else c ∈ btn_classList btn)
          (unitButtons (elements w')) (unitButtons (elements w'')).
Proof.
  cbn zeta.
  destruct (fetchWeather_success_always query w w' data) as (-> & _ & _ & t & c & ->).
  destruct (render_fields data w') as (_ & _ & _ & _ & _ & ->).
  cbn [unitButtons currentUnit set_conditionText set_temperature].
  apply Forall2_fmap_r, Forall2_same_length_lookup. split; [reflexivity|].
  intros i btn btn' Hi Hi'. rewrite Hi in Hi'. injection Hi' as <-.
  split; [reflexivity|]. intros c'. apply toggle_active_spec.
Qed.

(** X4. Settling a successful fetch whose storage write does not throw
    stores the new snapshot and writes the one storage key [lastLocation]:
    every other key keeps its value, and the search field, the suggestion
    list, the requests made and the console are untouched. *)
Theorem fetch_success_frame query w w' data :
  setItem_error (localStorage w') "lastLocation" query = None ->
  let w'' := resume (fetchWeather query w) (Resolved (ResponseOk (Json data))) w' in
  weatherData (state w'') = Some data /\
  (forall key, key <> "lastLocation" -> localStorage w'' !! key = localStorage w' !! key) /\
  searchInput_value (elements w'') = searchInput_value (elements w') /\
  suggestions_innerHTML (elements w'') = suggestions_innerHTML (elements w') /\
  suggestions_classList (elements w'') = suggestions_classList (elements w') /\
  network w'' = network w' /\
  console w'' = console w'.
Proof.
  intros Hstored. cbn zeta.
  destruct (fetchWeather_success_fields query w w' data Hstored)
    as (-> & -> & -> & -> & _ & ->).
  split; [reflexivity|]. split.
  - intros key Hkey. apply lookup_insert_ne. congruence.
  - repeat split; reflexivity.
Qed.

(** X25. When the storage write after the render throws, the [catch] of
    [fetchWeather] takes over with everything before it done: the snapshot
    is stored and rendered and [lastLocation] is assigned in memory, the
    storage is as it was, and the display ends with [--] for the
    temperature and the thrown message (or [Data unavailable] when that is
    empty) for the condition text, the error logged once. *)
Theorem fetch_success_storage_failure query w w' data e :
  setItem_error (localStorage w') "lastLocation" query = Some e ->
  let w'' := resume (fetchWeather query w) (Resolved (ResponseOk (Json data))) w' in
  state w'' = {| currentUnit := currentUnit (state w'); lastLocation := query;
                 weatherData := Some data |} /\
  localStorage w'' = localStorage w' /\
  temperature (elements w'') = "--" /\
  conditionText (elements w'') = or_else (Some (message e)) "Data unavailable" /\
  location_text (elements w'')
  = loc_name (location data) +:+ ", " +:+ loc_country (location data) /\
  conditionIcon_alt (elements w'') = text (condition (current data)) /\
  network w'' = network w' /\
  console w'' = (console w' ++ [("Fetch error:", e)])%list.
Proof.
  intros Hthrown. cbn zeta. rewrite fetchWeather_success, Hthrown.
  pose proof (render_fields data w') as Hrendered. cbn zeta in Hrendered.
  revert Hrendered. generalize (render data w').
  intros r (Hstate & Hstorage & Hnetwork & Hconsole & _ & Hels).
  cbn [fetchWeather_catch showErrorState console_error on_elements on_state set_elements
       set_state set_console state localStorage network console elements].
  rewrite Hstate, Hstorage, Hnetwork, Hconsole, Hels. repeat split; reflexivity.
Qed.

End Rendering.

Section Flow.
Context {host : Host}.

Lemma or_else_nonempty (a : option string) (d : string) :
  d <> EmptyString -> or_else a d <> EmptyString.
Proof. intros Hd. destruct a as [[|c r]|]; cbn; [exact Hd | discriminate | exact Hd]. Qed.

(** The fetch continuation never touches the search field or the
    suggestion list, whatever the response. *)
Lemma fetchWeather_keeps_search query w o w' :
  let w'' := resume (fetchWeather query w) o w' in
  searchInput_value (elements w'') = searchInput_value (elements w') /\
  suggestions_innerHTML (elements w'') = suggestions_innerHTML (elements w') /\
  suggestions_classList (elements w'') = suggestions_classList (elements w').
Proof.
  cbn zeta.
  assert ((forall data, o <> Resolved (ResponseOk (Json data))) \/
          exists data, o = Resolved (ResponseOk (Json data))) as [Hfail | [data ->]].
  { destruct o as [e|[[e|data]|body]];
      first [ left; intros data'; discriminate | right; eexists; reflexivity ]. }
  - destruct (fetchWeather_failure query w w' o Hfail) as (e & _ & ->).
    repeat split; reflexivity.
  - destruct (fetchWeather_success_always query w w' data) as (_ & _ & _ & t & c & ->).
    destruct (render_fields data w') as (_ & _ & _ & _ & _ & ->).
    repeat split; reflexivity.
Qed.

(** X5. While a fetch is in flight the temperature shows [...] and the
    condition text [Loading...]; exactly one request, for the encoded
    query, has been added; every other element still shows what it showed,
    and state, storage, body classes and console are unchanged. *)
Theorem fetch_pending_shows_loading query w :
  let w1 := suspended (fetchWeather query w) in
  temperature (elements w1) = "..." /\
  conditionText (elements w1) = "Loading..." /\
  network w1 = (network w ++ [current_url query])%list /\
  set_temperature (temperature (elements w))
    (set_conditionText (conditionText (elements w)) (elements w1)) = elements w /\
  state w1 = state w /\
  localStorage w1 = localStorage w /\
  body_classList w1 = body_classList w /\
  console w1 = console w.
Proof.
  cbn zeta. rewrite fetchWeather_suspended.
  destruct w as [st els bcl ls net con]. destruct els. repeat split; reflexivity.
Qed.

(** X6. However a fetch fails, the error display is never blank: the
    temperature shows [--] and the condition text is not empty. *)
Theorem fetch_failure_text_never_empty query w w' o :
  (forall data, o <> Resolved (ResponseOk (Json data))) ->
  let w'' := resume (fetchWeather query w) o w' in
  temperature (elements w'') = "--" /\ conditionText (elements w'') <> EmptyString.
Proof.
  intros Hfail. cbn zeta.
  destruct (fetchWeather_failure query w w' o Hfail) as (e & _ & ->).
  split; [reflexivity|].
  cbn [fetchWeather_catch showErrorState console_error on_elements set_elements elements
       set_console set_conditionText conditionText].
  apply or_else_nonempty. discriminate.
Qed.

(** X7. The temperature shown after a successful fetch whose storage write
    does not throw is the text of an integer within half a degree of the
    snapshot's reading for the selected unit, the upper integer when the
    reading lies halfway. *)
Theorem fetch_success_temperature_within_half query w w' data :
  setItem_error (localStorage w') "lastLocation" query = None ->
  let w'' := resume (fetchWeather query w) (Resolved (ResponseOk (Json data))) w' in
  let reading := temp_of (currentUnit (state w'')) (current data) in
  exists n : Z,
    temperature (elements w'') = number_to_string (inject_Z n) /\
    (inject_Z n - (1 # 2) <= reading)%Q /\ (reading < inject_Z n + (1 # 2))%Q.
Proof.
  intros Hstored. cbn zeta.
  destruct (fetchWeather_success_fields query w w' data Hstored)
    as (-> & _ & _ & _ & _ & ->).
  cbn [temperature state currentUnit].
  eexists. split; [reflexivity|]. apply Math_round_nearest.
Qed.

(** ** Search submit *)

Lemma suspended_awaited query w f :
  suspended (awaited (fetchWeather query w) f) = suspended (fetchWeather query w).
Proof. reflexivity. Qed.

Lemma resume_awaited query w f o w' :
  resume (awaited (fetchWeather query w) f) o w' = f (resume (fetchWeather query w) o w').
Proof. reflexivity. Qed.

Lemma suspended_detached query w f :
  suspended (detached (fetchWeather query w) f) = f (suspended (fetchWeather query w)).
Proof. reflexivity. Qed.

Lemma resume_detached query w f o w' :
  resume (detached (fetchWeather query w) f) o w' = resume (fetchWeather query w) o w'.
Proof. reflexivity. Qed.

Lemma clearSearch_state w : state (clearSearch w) = state w.
Proof. reflexivity. Qed.

Lemma trimStart_blank (s : string) :
  Forall (fun c => is_white_space c = true) (list_ascii_of_string s) ->
  trimStart s = EmptyString.
Proof.
  induction s as [|c s IH]; [reflexivity|]. cbn [list_ascii_of_string trimStart].
  intros Hblank. inversion Hblank as [|? ? Hc Hs]; subst.
  rewrite Hc. apply IH, Hs.
Qed.

(** X8. Submitting a search field that holds nothing but white space does
    nothing at all: no request, no change of display or state. *)
Theorem handleSearch_ignores_blank w :
  Forall (fun c => is_white_space c = true)
         (list_ascii_of_string (searchInput_value (elements w))) ->
  handleSearch w = Done w.
Proof.
  intros Hblank. unfold handleSearch, trim.
  rewrite (trimStart_blank _ Hblank). reflexivity.
Qed.

(** X9. Submitting any other value requests the current conditions for the
    trimmed value and leaves the field as typed while the request is in
    flight.  When the response settles, in success or in failure, the field
    is emptied and the suggestion list hidden; after a success
    [lastLocation] is the trimmed value. *)
Theorem handleSearch_fetches_trimmed_then_clears w :
  let query := trim (searchInput_value (elements w)) in
  query <> EmptyString ->
  network (suspended (handleSearch w)) = (network w ++ [current_url query])%list /\
  searchInput_value (elements (suspended (handleSearch w)))
  = searchInput_value (elements w) /\
  (forall o w',
     let w'' := resume (handleSearch w) o w' in
     searchInput_value (elements w'') = EmptyString /\
     ("show" ∉ suggestions_classList (elements w'')) /\
     state w'' = state (resume (fetchWeather query w) o w')) /\
  (forall data w',
     lastLocation (state (resume (handleSearch w) (Resolved (ResponseOk (Json data))) w'))
     = query).
Proof.
  cbn zeta. intros Hquery.
  destruct (handleSearch_cases w) as [[Hempty _] | [_ Hsearch]]; [congruence|].
  rewrite Hsearch. set (query := trim (searchInput_value (elements w))).
  rewrite suspended_awaited, fetchWeather_suspended.
  split; [reflexivity|]. split; [destruct w as [st [] bcl ls net con]; reflexivity|].
  split.
  - intros o w'. rewrite resume_awaited.
    split; [reflexivity|]. split; [apply not_shown_after_remove | reflexivity].
  - intros data w'. rewrite resume_awaited, clearSearch_state.
    destruct (fetchWeather_success_always query w w' data) as (-> & _).
    reflexivity.
Qed.

(** ** Suggestion click *)

(** X10. A click inside the suggestion list on anything that is not a
    suggestion item does nothing.  A click on an item requests the current
    conditions for the item's text and, without waiting for the response,
    empties the search field and hides the list; when the response settles
    the search field is left as it then is. *)
Theorem handleSuggestionClick_clears_at_once target w :
  ("suggestion-item" ∉ classList target -> handleSuggestionClick target w = Done w) /\
  ("suggestion-item" ∈ classList target ->
   let w1 := suspended (handleSuggestionClick target w) in
   network w1 = (network w ++ [current_url (textContent target)])%list /\
   searchInput_value (elements w1) = EmptyString /\
   ("show" ∉ suggestions_classList (elements w1)) /\
   suggestions_innerHTML (elements w1) = suggestions_innerHTML (elements w) /\
   forall o w',
     searchInput_value (elements (resume (handleSuggestionClick target w) o w'))
     = searchInput_value (elements w')).
Proof.
  unfold handleSuggestionClick, classList_contains. split; intros Hclass.
  - rewrite bool_decide_eq_false_2 by exact Hclass. reflexivity.
  - rewrite bool_decide_eq_true_2 by exact Hclass. cbn zeta.
    rewrite suspended_detached, fetchWeather_suspended.
    split; [reflexivity|]. split; [reflexivity|].
    split; [apply not_shown_after_remove|].
    split; [destruct w as [st [] bcl ls net con]; reflexivity|].
    intros o w'. rewrite resume_detached.
    apply (fetchWeather_keeps_search (textContent target) w o w').
Qed.

End Flow.

Section UnitSwitch.
Context {host : Host}.

Lemma world_ext (a b : World) :
  state a = state b -> elements a = elements b -> body_classList a = body_classList b ->
  localStorage a = localStorage b -> network a = network b -> console a = console b ->
  a = b.
Proof. destruct a, b; cbn; intros; subst; reflexivity. Qed.

Lemma switchUnit_noop unit w :
  weatherData (state w) = None \/ currentUnit (state w) = unit -> switchUnit unit w = w.
Proof.
  intros [Hnone | Hsame]; unfold switchUnit.
  - rewrite Hnone. reflexivity.
  - destruct (weatherData (state w)); [|reflexivity].
    rewrite bool_decide_eq_true_2 by exact Hsame. reflexivity.
Qed.

Lemma switchUnit_switched unit w data :
  weatherData (state w) = Some data -> currentUnit (state w) <> unit ->
  switchUnit unit w
  = updateTemperature (temp_of unit (current data)) unit (on_state (set_currentUnit unit) w).
Proof.
  intros Hdata Hunit. unfold switchUnit. rewrite Hdata.
  rewrite bool_decide_eq_false_2 by exact Hunit. reflexivity.
Qed.

Lemma add_remove_id (a : string) (s : gset string) : a ∈ s -> {[a]} ∪ s ∖ {[a]} = s.
Proof.
  intros Ha. apply set_eq. intros x.
  rewrite elem_of_union, elem_of_difference, elem_of_singleton.
  destruct (decide (x = a)); intuition congruence.
Qed.

Lemma remove_add_id (a : string) (s : gset string) : a ∉ s -> ({[a]} ∪ s) ∖ {[a]} = s.
Proof.
  intros Ha. apply set_eq. intros x.
  rewrite elem_of_difference, elem_of_union, elem_of_singleton.
  destruct (decide (x = a)); intuition congruence.
Qed.

Lemma remove_id (a : string) (s : gset string) : a ∉ s -> s ∖ {[a]} = s.
Proof.
  intros Ha. apply set_eq. intros x.
  rewrite elem_of_difference, elem_of_singleton.
  destruct (decide (x = a)); intuition congruence.
Qed.

(** Marking for [unit] and then for [back] leaves a button as it was, if
    it was marked for [back] to begin with. *)
Lemma toggle_there_and_back (unit back : Unit) (btn : UnitButton) :
  unit <> back ->
  ("active" ∈ btn_classList btn <-> dataset_unit btn = back) ->
  let marked :=
    set_btn_classList
      (classList_toggle "active" (bool_decide (dataset_unit btn = unit)) (btn_classList btn))
      btn in
  set_btn_classList
    (classList_toggle "active" (bool_decide (dataset_unit marked = back))
       (btn_classList marked))
    marked = btn.
Proof.
  intros Hne Hmarked. destruct btn as [u s]. cbn in *. unfold set_btn_classList. cbn.
  f_equal. unfold classList_toggle, classList_add, classList_remove.
  destruct (bool_decide_reflect (u = back)) as [Hback | Hback];
    destruct (bool_decide_reflect (u = unit)) as [Hunit | Hunit].
  - congruence.
  - apply add_remove_id, Hmarked, Hback.
  - apply remove_add_id. rewrite Hmarked. exact Hback.
  - assert ("active" ∉ s) as Hnot by (rewrite Hmarked; exact Hback).
    rewrite (remove_id "active" s Hnot). apply remove_id, Hnot.
Qed.

Lemma updateTemperature_elements temp unit w :
  elements (updateTemperature temp unit w)
  = set_unitButtons
      (map (fun btn =>
              set_btn_classList
                (classList_toggle "active" (bool_decide (dataset_unit btn = unit))
                   (btn_classList btn)) btn)
           (unitButtons (elements w)))
      (set_temperature (number_to_string (inject_Z (Math_round temp))) (elements w)).
Proof. reflexivity. Qed.

(** If the display agrees with the state (the temperature is the stored
    snapshot's for the current unit, the buttons of the current unit are
    the active ones), switching to the other unit and back restores the
    world. *)
Lemma switchUnit_there_and_back unit w data :
  weatherData (state w) = Some data ->
  currentUnit (state w) <> unit ->
  temperature (elements w)
  = number_to_string (inject_Z (Math_round (temp_of (currentUnit (state w)) (current data)))) ->
  Forall (fun btn => "active" ∈ btn_classList btn <-> dataset_unit btn = currentUnit (state w))
         (unitButtons (elements w)) ->
  switchUnit (currentUnit (state w)) (switchUnit unit w) = w.
Proof.
  intros Hdata Hunit Htemp Hbuttons.
  rewrite (switchUnit_switched unit w data Hdata Hunit).
  rewrite (switchUnit_switched (currentUnit (state w)) _ data);
    [|exact Hdata | cbn; congruence].
  apply world_ext; try (destruct w as [[cu ll wd] els bcl ls net con]; reflexivity).
  rewrite !updateTemperature_elements.
  change (elements (on_state ?f ?x)) with (elements x).
  rewrite updateTemperature_elements.
  change (elements (on_state ?f ?x)) with (elements x).
  destruct (elements w) as [t lt tt dt src alt ct ws wdir hu pr vi sv sh sc bs] eqn:Hels.
  cbn [temperature unitButtons] in Htemp, Hbuttons.
  unfold set_unitButtons, set_temperature.
  cbn [temperature location_text time_text date_text conditionIcon_src conditionIcon_alt
       conditionText windSpeed windDir humidity_text pressure visibility searchInput_value
       suggestions_innerHTML suggestions_classList unitButtons].
  rewrite <- Htemp. f_equal.
  rewrite map_map. rewrite <- (map_id bs) at 2.
  apply map_ext_Forall. eapply Forall_impl; [exact Hbuttons|].
  intros btn Hbtn. cbv beta in Hbtn |- *.
  apply (toggle_there_and_back unit (currentUnit (state w)) btn); [congruence | exact Hbtn].
Qed.

(** X11. Until a fetch has succeeded a unit click changes nothing: on the
    freshly loaded page, while the startup request is in flight and after
    it has failed, [switchUnit] returns the world as it is, so the selected
    unit stays Celsius. *)
Theorem switchUnit_inert_before_first_success page body storage unit o :
  (forall data, o <> Resolved (ResponseOk (Json data))) ->
  let boot := initApp (load page body storage) in
  switchUnit unit (load page body storage) = load page body storage /\
  switchUnit unit (suspended boot) = suspended boot /\
  switchUnit unit (run_to_end boot o) = run_to_end boot o /\
  currentUnit (state (run_to_end boot o)) = Celsius.
Proof.
  intros Hfail. cbn zeta. unfold run_to_end, initApp.
  destruct (fetchWeather_failure (lastLocation (state (load page body storage)))
              (load page body storage)
              (suspended (fetchWeather (lastLocation (state (load page body storage)))
                            (load page body storage))) o Hfail) as (e & _ & ->).
  repeat split; try reflexivity; apply switchUnit_noop; left; reflexivity.
Qed.

(** X12. A unit click repeated is a unit click: the second one finds the
    unit already selected and changes nothing. *)
Theorem switchUnit_idempotent unit w :
  switchUnit unit (switchUnit unit w) = switchUnit unit w.
Proof.
  destruct (weatherData (state w)) as [data|] eqn:Hdata.
  - destruct (decide (currentUnit (state w) = unit)) as [Hsame | Hother].
    + rewrite (switchUnit_noop unit w) by (right; exact Hsame).
      apply switchUnit_noop. right. exact Hsame.
    + rewrite (switchUnit_switched unit w data Hdata Hother).
      apply switchUnit_noop. right. reflexivity.
  - rewrite (switchUnit_noop unit w) by (left; exact Hdata).
    apply switchUnit_noop. left. exact Hdata.
Qed.

(** X13. After a successful fetch whose storage write does not throw,
    switching to the other unit and back restores the whole world: state,
    every element, the buttons' classes. *)
Theorem switchUnit_round_trip_after_render query w w' data unit :
  setItem_error (localStorage w') "lastLocation" query = None ->
  unit <> currentUnit (state w') ->
  let w'' := resume (fetchWeather query w) (Resolved (ResponseOk (Json data))) w' in
  switchUnit (currentUnit (state w')) (switchUnit unit w'') = w''.
Proof.
  intros Hstored Hunit. cbn zeta.
  destruct (fetchWeather_success_fields query w w' data Hstored)
    as (Hstate & _ & _ & _ & _ & Hels).
  set (w'' := resume (fetchWeather query w) (Resolved (ResponseOk (Json data))) w') in *.
  assert (currentUnit (state w'') = currentUnit (state w')) as Hcu by (rewrite Hstate; reflexivity).
  rewrite <- Hcu. apply (switchUnit_there_and_back unit w'' data).
  - rewrite Hstate. reflexivity.
  - congruence.
  - rewrite Hels, Hcu. reflexivity.
  - rewrite Hels, Hcu. cbn [unitButtons]. apply Forall_map, Forall_true.
    intros btn. cbn. rewrite (toggle_active_spec (currentUnit (state w')) btn "active").
    destruct (decide ("active" = "active")); [reflexivity | congruence].
Qed.

(** X14. A fetch that fails after an earlier success keeps the earlier
    snapshot while the display shows the error; a unit click then writes
    that snapshot's temperature for the clicked unit beside the error
    text, which stays. *)
Theorem stale_snapshot_survives_failed_fetch query w w' data o unit :
  weatherData (state w') = Some data ->
  (forall data', o <> Resolved (ResponseOk (Json data'))) ->
  currentUnit (state w') <> unit ->
  let failed := resume (fetchWeather query w) o w' in
  weatherData (state failed) = Some data /\
  temperature (elements failed) = "--" /\
  temperature (elements (switchUnit unit failed))
  = number_to_string (inject_Z (Math_round (temp_of unit (current data)))) /\
  conditionText (elements (switchUnit unit failed)) = conditionText (elements failed) /\
  conditionText (elements (switchUnit unit failed)) <> EmptyString.
Proof.
  intros Hdata Hfail Hunit. cbn zeta.
  destruct (fetchWeather_failure query w w' o Hfail) as (e & _ & ->).
  assert (state (fetchWeather_catch e w') = state w') as Hstate by reflexivity.
  split; [rewrite Hstate; exact Hdata|]. split; [reflexivity|].
  rewrite (switchUnit_switched unit (fetchWeather_catch e w') data)
    by (rewrite Hstate; assumption).
  split; [reflexivity|]. split; [reflexivity|].
  cbn [updateTemperature on_elements on_state set_elements set_state elements set_unitButtons
       set_temperature conditionText fetchWeather_catch showErrorState console_error
       set_console set_conditionText].
  apply or_else_nonempty. discriminate.
Qed.

End UnitSwitch.

Section SuggestionList.
Context {host : Host}.

Lemma add_add (a : string) (s : gset string) : {[a]} ∪ ({[a]} ∪ s) = {[a]} ∪ s.
Proof.
  apply set_eq. intros x. rewrite !elem_of_union, elem_of_singleton. intuition congruence.
Qed.

Lemma add_after_remove (a : string) (s : gset string) : {[a]} ∪ s ∖ {[a]} = {[a]} ∪ s.
Proof.
  apply set_eq. intros x.
  rewrite !elem_of_union, elem_of_difference, elem_of_singleton.
  destruct (decide (x = a)); intuition congruence.
Qed.

(** [showSuggestions] writes some markup and adds the class [show]. *)
Lemma showSuggestions_shape (suggestions : option (list SearchSuggestion)) :
  exists markup, forall w,
    showSuggestions suggestions w
    = on_elements (fun e =>
        set_suggestions_classList
          (classList_add "show" (suggestions_classList e))
          (set_suggestions_innerHTML markup e)) w.
Proof.
  destruct suggestions as [[|item rest]|]; eexists; intros [st [] bcl ls net con];
    reflexivity.
Qed.

(** X15. The suggestion list shows the latest response only: showing a
    second list over a first, or over a hidden list, gives the world that
    showing the second alone gives.  A shown list carries the class
    [show]; hiding it removes that class and no other, and leaves the
    items in place. *)
Theorem showSuggestions_replaces first second w :
  showSuggestions second (showSuggestions first w) = showSuggestions second w /\
  showSuggestions second (hideSuggestions w) = showSuggestions second w /\
  ("show" ∈ suggestions_classList (elements (showSuggestions first w))) /\
  ("show" ∉ suggestions_classList (elements (hideSuggestions (showSuggestions first w)))) /\
  (forall c, c <> "show" ->
     c ∈ suggestions_classList (elements (hideSuggestions (showSuggestions first w)))
     <-> c ∈ suggestions_classList (elements w)) /\
  suggestions_innerHTML (elements (hideSuggestions (showSuggestions first w)))
  = suggestions_innerHTML (elements (showSuggestions first w)).
Proof.
  destruct (showSuggestions_shape first) as [m1 Hfirst].
  destruct (showSuggestions_shape second) as [m2 Hsecond].
  rewrite !Hsecond, !Hfirst.
  destruct w as [st els bcl ls net con].
  destruct els as [t lt tt dt src alt ct ws wdir hu pr vi sv sh sc bs].
  unfold on_elements, hideSuggestions, on_elements, set_elements, set_suggestions_innerHTML,
    set_suggestions_classList, classList_add, classList_remove.
  cbn [elements state body_classList localStorage network console temperature
       location_text time_text date_text conditionIcon_src conditionIcon_alt
       conditionText windSpeed windDir humidity_text pressure visibility
       searchInput_value suggestions_innerHTML suggestions_classList unitButtons].
  rewrite add_add, add_after_remove.
  split; [reflexivity|]. split; [reflexivity|].
  split; [apply elem_of_union_l, elem_of_singleton; reflexivity|].
  split; [rewrite elem_of_difference, elem_of_singleton; tauto|].
  split; [|reflexivity].
  intros c Hc. rewrite elem_of_difference, elem_of_union, !elem_of_singleton. tauto.
Qed.

Lemma item_click_request t w :
  network (suspended (handleSuggestionClick (item_node t) w))
  = (network w ++ [current_url t])%list.
Proof.
  unfold handleSuggestionClick, classList_contains.
  rewrite bool_decide_eq_true_2
    by (cbn [item_node classList]; apply elem_of_singleton_2; reflexivity).
  rewrite suspended_detached, fetchWeather_suspended. reflexivity.
Qed.

Lemma plain_text_has_no_tag (t : string) :
  is_plain_text t = true -> split_at "<"%char t = None.
Proof.
  unfold is_plain_text. induction t as [|c t IH]; [reflexivity|].
  cbn [list_ascii_of_string forallb split_at]. intros Hplain.
  apply andb_true_iff in Hplain as [Hc Ht].
  destruct (bool_decide (c = "<"%char)); [discriminate|].
  rewrite (IH Ht). reflexivity.
Qed.

(** X16. For suggestions whose names and countries are plain text (no
    [<], no [&], no carriage return, no NUL), the shown list has one item
    per entry up to five, never more; the item at position [i] carries the
    text [name, country] of entry [i], and a click on it requests the
    current conditions for exactly that text. *)
Theorem rendered_suggestion_click_fetches_entry
    (suggestions : list SearchSuggestion) w i item :
  Forall (fun item => is_plain_text (sg_name item +:+ ", " +:+ sg_country item) = true)
         suggestions ->
  suggestions !! i = Some item ->
  i < 5 ->
  exists nodes node,
    children_of (suggestions_innerHTML (elements (showSuggestions (Some suggestions) w)))
    = Some nodes /\
    length nodes = length suggestions `min` 5 /\
    nodes !! i = Some node /\
    textContent node = sg_name item +:+ ", " +:+ sg_country item /\
    forall w1,
      network (suspended (handleSuggestionClick node w1))
      = (network w1 ++ [current_url (sg_name item +:+ ", " +:+ sg_country item)])%list.
Proof.
  intros Hplain Hitem Hi.
  assert (Forall (fun item =>
                    split_at "<"%char (sg_name item +:+ ", " +:+ sg_country item) = None)
                 suggestions) as Hclean.
  { eapply Forall_impl; [exact Hplain|]. intros x Hx. apply plain_text_has_no_tag, Hx. }
  rewrite showSuggestions_markup. change (default [] (Some suggestions)) with suggestions.
  assert (take 5 suggestions !! i = Some item) as Htaken
    by (rewrite lookup_take_lt by exact Hi; exact Hitem).
  destruct (take 5 suggestions) as [|first shown] eqn:Htake; [destruct i; discriminate|].
  cbv beta iota. rewrite <- Htake in *.
  rewrite <- (map_map (fun item => sg_name item +:+ ", " +:+ sg_country item) suggestion_item).
  rewrite children_of_items by (apply Forall_map, Forall_take, Hclean).
  eexists. exists (item_node (sg_name item +:+ ", " +:+ sg_country item)).
  split; [reflexivity|]. split.
  - rewrite !length_map, length_take. lia.
  - split.
    + rewrite !list_lookup_fmap, Htaken. reflexivity.
    + split; [reflexivity|]. intros w1. apply item_click_request.
Qed.

End SuggestionList.

(** ** Debounce on arbitrary traces *)

Section DebounceTraces.
Import Debounce.
Context {A : Type}.
Variable delay : nat.
Implicit Types (l : Loop (A := A)) (trace : list (nat * A)).











(** [run] is [run_tasks] with every invocation a task of its own. *)
Lemma run_tasks_single (trace : list (nat * A)) l :
  run_tasks delay (map single trace) l = run delay trace l.
Proof.
  revert l. induction trace as [|[t args] trace IH]; intros l; [reflexivity|].
  cbn [map run_tasks run]. rewrite IH. reflexivity.
Qed.






End DebounceTraces.

(** ** The debounced search field *)

Section SearchField.
Import Debounce.

Lemma retype value value' w :
  on_elements (set_searchInput_value value') (on_elements (set_searchInput_value value) w)
  = on_elements (set_searchInput_value value') w.
Proof. destruct w as [st [] bcl ls net con]. reflexivity. Qed.

(** Nothing is due: the loop runs no callback. *)
Lemma run_due_idle t p :
  calls (advance t (input_timer p)) = calls (input_timer p) ->
  world (run_due t p) = world p.
Proof.
  intros Hcalls. unfold run_due. cbn [world]. rewrite Hcalls, drop_all. reflexivity.
Qed.

(** During a burst of edits the loop stays armed with the latest edit and
    the world only follows the field's value. *)
Lemma input_events_armed events : forall t value p w,
  armed input_delay t tt (input_timer p) ->
  world p = on_elements (set_searchInput_value value) w ->
  rapid input_delay t events ->
  let p' := input_events events p in
  armed input_delay (fst (final (t, value) events)) tt (input_timer p') /\
  world p' = on_elements (set_searchInput_value (snd (final (t, value) events))) w.
Proof.
  induction events as [|[t1 value1] events IH]; intros t value p w Harmed Hworld Hrapid.
  - split; [exact Harmed | exact Hworld].
  - destruct Hrapid as (Hle & Hlt & Hrapid). cbn [input_events final].
    destruct (armed_advance_early input_delay t tt (input_timer p) t1 Harmed Hle Hlt)
      as (Htimers & Hcalls & Hhandle & Hnow).
    apply IH; [| |exact Hrapid].
    + cbn [input_event input_timer run_due]. apply armed_debounced.
      * apply single_slot_advance, (armed_single_slot input_delay t tt), Harmed.
      * exact Hnow.
      * exact Hcalls.
    + cbn [input_event world]. rewrite run_due_idle.
      * rewrite Hworld. apply retype.
      * rewrite Hcalls. destruct Harmed as (_ & -> & _). reflexivity.
Qed.

(** X19. The search field end to end.  After a burst of edits, each less
    than 300 ms after the previous one, nothing has been requested: the
    world is the one before the burst with the field holding the last
    value.  It stays so until 300 ms have passed since the last edit; from
    then on [handleInput] has run exactly once, on the last value, so at
    most one request has been made, the search request for the trimmed
    last value when that has at least two characters, and waiting longer
    changes nothing more. *)
Theorem debounced_input_requests_last_value
    (w : World) (now0 id0 t0 : nat) (value0 : string) (rest : list (nat * string)) :
  now0 <= t0 ->
  rapid input_delay t0 rest ->
  let p := input_events ((t0, value0) :: rest) (page_of w now0 id0) in
  let t_last := fst (final (t0, value0) rest) in
  let typed := on_elements (set_searchInput_value (snd (final (t0, value0) rest))) w in
  let query := trim (snd (final (t0, value0) rest)) in
  world p = typed /\
  (forall T, t_last <= T -> T < t_last + 300 -> world (run_due T p) = typed) /\
  (forall T, t_last + 300 <= T ->
     world (run_due T p) = suspended (handleInput typed) /\
     network (world (run_due T p))
     = (network w ++ if String.length query <? 2 then [] else [search_url query])%list /\
     forall T', world (run_due T' (run_due T p)) = world (run_due T p)).
Proof.
  intros Hstart Hrapid. cbn zeta.
  assert (armed input_delay t0 tt
            (input_timer (input_event t0 value0 (page_of w now0 id0)))) as Harmed0.
  { cbn [input_event input_timer run_due page_of]. apply armed_debounced.
    - apply single_slot_advance, single_slot_init.
    - cbn. lia.
    - reflexivity. }
  assert (world (input_event t0 value0 (page_of w now0 id0))
          = on_elements (set_searchInput_value value0) w) as Hworld0.
  { cbn [input_event world]. rewrite run_due_idle; reflexivity. }
  destruct (input_events_armed rest t0 value0 _ w Harmed0 Hworld0 Hrapid)
    as (Harmed & Hworld).
  cbn [input_events].
  set (p := input_events rest (input_event t0 value0 (page_of w now0 id0))) in *.
  set (t_last := fst (final (t0, value0) rest)) in *.
  set (value := snd (final (t0, value0) rest)) in *.
  split; [exact Hworld|]. split.
  - intros T Hle HT.
    destruct (armed_advance_early input_delay t_last tt (input_timer p) T Harmed Hle HT)
      as (_ & Hcalls & _).
    rewrite run_due_idle; [exact Hworld|].
    rewrite Hcalls. destruct Harmed as (_ & -> & _). reflexivity.
  - intros T HT.
    destruct (armed_advance_due input_delay t_last tt (input_timer p) T Harmed HT)
      as (Htimers & Hcalls).
    assert (world (run_due T p)
            = suspended (handleInput (on_elements (set_searchInput_value value) w))) as Hrun.
    { unfold run_due. cbn [world]. rewrite Hcalls.
      destruct Harmed as (_ & -> & _). cbn [length drop foldl]. rewrite Hworld. reflexivity. }
    split; [exact Hrun|]. split.
    + rewrite Hrun. unfold handleInput.
      replace (searchInput_value (elements (on_elements (set_searchInput_value value) w)))
        with value by (destruct w as [st [] bcl ls net con]; reflexivity).
      destruct (String.length (trim value) <? 2).
      * cbn [suspended]. rewrite app_nil_r.
        destruct w as [st [] bcl ls net con]. reflexivity.
      * cbn [suspended]. destruct w as [st [] bcl ls net con]. reflexivity.
    + intros T'. apply run_due_idle.
      unfold run_due at 1. cbn [input_timer].
      unfold advance at 1. cbn [calls]. rewrite Htimers.
      rewrite filter_nil. cbn [map]. apply app_nil_r.
Qed.

End SearchField.

(** ** Request addresses *)

Section Requests.

Lemma encode_unit_chars (c : ascii) :
  forallb is_component_char (list_ascii_of_string (encode_unit c)) = true.
Proof. destruct c as [[] [] [] [] [] [] [] []]; reflexivity. Qed.

Lemma list_ascii_of_append (s t : string) :
  list_ascii_of_string (s +:+ t) = (list_ascii_of_string s ++ list_ascii_of_string t)%list.
Proof.
  induction s as [|c s IH]; [reflexivity|].
  rewrite append_cons. cbn [list_ascii_of_string]. rewrite IH. reflexivity.
Qed.

Lemma encodeURIComponent_chars (s : string) :
  forallb is_component_char (list_ascii_of_string (encodeURIComponent s)) = true.
Proof.
  induction s as [|c s IH]; [reflexivity|].
  cbn [encodeURIComponent]. rewrite list_ascii_of_append, forallb_app, encode_unit_chars, IH.
  reflexivity.
Qed.

(** X20. Whatever the location or search text is, the part of the request
    address after [&q=] is made of unreserved characters and percent
    signs only.  It therefore contains none of [&], [=], [#], [?], [/],
    [+] or a space: the text cannot add or change a parameter of the
    request. *)
Theorem request_query_is_escaped (query : string) :
  exists encoded,
    current_url query
    = "https://api.weatherapi.com/v1/current.json?key=44ab26d1da7d4804a1d30908251008&q="
      +:+ encoded /\
    search_url query
    = "https://api.weatherapi.com/v1/search.json?key=44ab26d1da7d4804a1d30908251008&q="
      +:+ encoded /\
    forall c, In c (list_ascii_of_string encoded) ->
      (is_uri_unreserved c = true \/ c = "%"%char) /\
      ~ In c ["&"; "="; "#"; "?"; "/"; "+"; " "]%char.
Proof.
  exists (encodeURIComponent query).
  split; [reflexivity|]. split; [reflexivity|].
  intros c Hc.
  pose proof (encodeURIComponent_chars query) as Hall.
  rewrite forallb_forall in Hall. specialize (Hall c Hc).
  unfold is_component_char in Hall. apply orb_true_iff in Hall.
  assert (is_uri_unreserved c = true \/ c = "%"%char) as Hkind.
  { destruct Hall as [Hunreserved | Hpercent]; [left; exact Hunreserved|].
    right. apply bool_decide_eq_true_1 in Hpercent. exact Hpercent. }
  split; [exact Hkind|].
  intros Hsep. cbn [In] in Hsep.
  destruct Hkind as [Hunreserved | Hpercent];
    repeat (destruct Hsep as [Heq | Hsep];
            [first [ rewrite <- Heq in Hunreserved; discriminate Hunreserved
                   | rewrite <- Heq in Hpercent; discriminate Hpercent ]|]);
    exact Hsep.
Qed.

Lemma decode_encode_unit (c : ascii) (r : string) :
  decode_unit (encode_unit c +:+ r) = Some (c, r).
Proof. destruct c as [[] [] [] [] [] [] [] []]; reflexivity. Qed.

Lemma encodeURIComponent_injective (s t : string) :
  encodeURIComponent s = encodeURIComponent t -> s = t.
Proof.
  revert t. induction s as [|c s IH]; intros [|d t] Heq; cbn [encodeURIComponent] in Heq.
  - reflexivity.
  - apply (f_equal decode_unit) in Heq. rewrite decode_encode_unit in Heq. discriminate.
  - apply (f_equal decode_unit) in Heq. rewrite decode_encode_unit in Heq. discriminate.
  - apply (f_equal decode_unit) in Heq. rewrite !decode_encode_unit in Heq.
    injection Heq as -> Hrest. rewrite (IH t Hrest). reflexivity.
Qed.

Lemma append_cancel (p s t : string) : p +:+ s = p +:+ t -> s = t.
Proof.
  induction p as [|c p IH]; [trivial|]. rewrite !append_cons. intros Heq.
  injection Heq as Heq. apply IH, Heq.
Qed.

(** X21. Different locations give different request addresses, and so do
    different search texts: the encoding of the query loses nothing. *)
Theorem request_urls_distinguish_queries (a b : string) :
  a <> b -> current_url a <> current_url b /\ search_url a <> search_url b.
Proof.
  intros Hne. split; intros Heq; apply Hne, encodeURIComponent_injective;
    unfold current_url, search_url in Heq;
    repeat (apply append_cancel in Heq); exact Heq.
Qed.

End Requests.

(** ** Responses that settle one after another *)

Section Overlap.
Context {host : Host}.

Lemma toggle_overwrites (c : string) (force force' : bool) (s : gset string) :
  classList_toggle c force (classList_toggle c force' s) = classList_toggle c force s.
Proof.
  unfold classList_toggle, classList_add, classList_remove.
  apply set_eq. intros x.
  destruct force, force';
    rewrite ?elem_of_union, ?elem_of_difference, ?elem_of_union, ?elem_of_difference,
      ?elem_of_singleton;
    destruct (decide (x = c)); intuition congruence.
Qed.

Lemma mark_overwrites (unit unit' : Unit) (buttons : list UnitButton) :
  map (fun btn =>
         set_btn_classList
           (classList_toggle "active" (bool_decide (dataset_unit btn = unit))
              (btn_classList btn)) btn)
      (map (fun btn =>
              set_btn_classList
                (classList_toggle "active" (bool_decide (dataset_unit btn = unit'))
                   (btn_classList btn)) btn)
           buttons)
  = map (fun btn =>
           set_btn_classList
             (classList_toggle "active" (bool_decide (dataset_unit btn = unit))
                (btn_classList btn)) btn)
        buttons.
Proof.
  rewrite map_map. apply map_ext. intros [u s]. unfold set_btn_classList.
  cbn [dataset_unit btn_classList]. rewrite toggle_overwrites. reflexivity.
Qed.

(** X22. When the storage accepts the writes, a successful response
    overwrites whatever an earlier response left, whichever request was
    made first.  Settled after another success it gives exactly the world
    it gives alone; settled after a failure it gives the same state,
    elements, body classes and storage, the console alone keeping the
    logged error. *)
Theorem later_success_overwrites (a b : string) w1 w2 w' (da db : WeatherSnapshot) o :
  (forall data, o <> Resolved (ResponseOk (Json data))) ->
  setItem_error (localStorage w') "lastLocation" a = None ->
  setItem_error (localStorage w') "lastLocation" b = None ->
  setItem_error (<["lastLocation" := b]> (localStorage w')) "lastLocation" a = None ->
  let alone := resume (fetchWeather a w1) (Resolved (ResponseOk (Json da))) w' in
  resume (fetchWeather a w1) (Resolved (ResponseOk (Json da)))
    (resume (fetchWeather b w2) (Resolved (ResponseOk (Json db))) w') = alone /\
  let after_failure :=
    resume (fetchWeather a w1) (Resolved (ResponseOk (Json da)))
      (resume (fetchWeather b w2) o w') in
  state after_failure = state alone /\
  elements after_failure = elements alone /\
  body_classList after_failure = body_classList alone /\
  localStorage after_failure = localStorage alone.
Proof.
  intros Hfail Ha Hb Hab. cbn zeta.
  destruct (fetchWeather_success_fields a w1 w' da Ha) as (Hs0 & Hl0 & Hn0 & Hc0 & Hb0 & He0).
  split.
  - destruct (fetchWeather_success_fields b w2 w' db Hb)
      as (Hs1 & Hl1 & Hn1 & Hc1 & Hb1 & He1).
    assert (setItem_error
              (localStorage (resume (fetchWeather b w2) (Resolved (ResponseOk (Json db))) w'))
              "lastLocation" a = None) as Ha' by (rewrite Hl1; exact Hab).
    destruct (fetchWeather_success_fields a w1
                (resume (fetchWeather b w2) (Resolved (ResponseOk (Json db))) w') da Ha')
      as (Hs & Hl & Hn & Hc & Hb' & He).
    apply world_ext.
    + rewrite Hs, Hs0, Hs1. reflexivity.
    + rewrite He, He0, Hs1, He1. cbn [currentUnit unitButtons searchInput_value
        suggestions_innerHTML suggestions_classList].
      rewrite mark_overwrites. reflexivity.
    + rewrite Hb', Hb0, Hb1. apply toggle_overwrites.
    + rewrite Hl, Hl0, Hl1. apply insert_insert_eq.
    + rewrite Hn, Hn0, Hn1. reflexivity.
    + rewrite Hc, Hc0, Hc1. reflexivity.
  - destruct (fetchWeather_failure b w2 w' o Hfail) as (e & _ & ->).
    assert (setItem_error (localStorage (fetchWeather_catch e w')) "lastLocation" a = None)
      as Ha' by exact Ha.
    destruct (fetchWeather_success_fields a w1 (fetchWeather_catch e w') da Ha')
      as (Hs & Hl & Hn & Hc & Hb' & He).
    rewrite Hs, Hs0, He, He0, Hb', Hb0, Hl, Hl0.
    destruct w' as [st [] bcl ls net con]. repeat split; reflexivity.
Qed.

(** X23. When the suggestions arrive, [handleInput] writes the suggestion
    list's markup and class list and nothing else: state, storage,
    requests, body classes, console and every other element are as they
    were. *)
Theorem handleInput_success_only_touches_list w w' suggestions :
  2 <= String.length (trim (searchInput_value (elements w))) ->
  let w'' := resume (handleInput w) (Resolved (ResponseOk (Json suggestions))) w' in
  state w'' = state w' /\
  localStorage w'' = localStorage w' /\
  network w'' = network w' /\
  body_classList w'' = body_classList w' /\
  console w'' = console w' /\
  set_suggestions_innerHTML (suggestions_innerHTML (elements w'))
    (set_suggestions_classList (suggestions_classList (elements w')) (elements w''))
  = elements w'.
Proof.
  intros Hlen. cbn zeta. rewrite (handleInput_long w Hlen). cbn [resume].
  change (try_catch _ _ w') with (showSuggestions suggestions w').
  destruct (showSuggestions_shape suggestions) as [markup ->].
  destruct w' as [st [] bcl ls net con]. repeat split; reflexivity.
Qed.

End Overlap.

(** ** Trimmed queries *)

Section Trimming.
Context {host : Host}.

Lemma trimStart_head s c r : trimStart s = String c r -> is_white_space c = false.
Proof.
  induction s as [|a s IH]; cbn [trimStart]; [discriminate|].
  destruct (is_white_space a) eqn:Ha; [exact IH|].
  intros Heq. injection Heq as <- _. exact Ha.
Qed.

Lemma trimStart_fixed c r : is_white_space c = false -> trimStart (String c r) = String c r.
Proof. intros Hc. cbn [trimStart]. rewrite Hc. reflexivity. Qed.

Lemma trimEnd_head c r :
  is_white_space c = false -> exists r', trimEnd (String c r) = String c r'.
Proof.
  intros Hc. cbn [trimEnd]. destruct (trimEnd r); rewrite ?Hc; eauto.
Qed.

Lemma trimEnd_last s : forall u c,
  trimEnd s = u +:+ String c EmptyString -> is_white_space c = false.
Proof.
  induction s as [|a s IH]; intros u c; cbn [trimEnd].
  - destruct u; discriminate.
  - destruct (trimEnd s) as [|b r] eqn:Hend.
    + destruct (is_white_space a) eqn:Ha; [destruct u; discriminate|].
      destruct u as [|a' [|? ?]]; rewrite ?append_cons, ?append_nil; intros Heq.
      * injection Heq as <-. exact Ha.
      * discriminate.
      * discriminate.
    + destruct u as [|a' u]; rewrite ?append_cons, ?append_nil; intros Heq.
      * discriminate.
      * injection Heq as _ Heq. apply (IH u c). exact Heq.
Qed.

Lemma trimEnd_idempotent s : trimEnd (trimEnd s) = trimEnd s.
Proof.
  induction s as [|a s IH]; [reflexivity|]. cbn [trimEnd].
  destruct (trimEnd s) as [|b r] eqn:Hend.
  - destruct (is_white_space a) eqn:Ha; [reflexivity|]. cbn [trimEnd]. rewrite Ha. reflexivity.
  - change (trimEnd (String a (String b r))) with
      (match trimEnd (String b r) with
       | EmptyString => if is_white_space a then EmptyString else String a EmptyString
       | r' => String a r'
       end).
    rewrite IH. reflexivity.
Qed.

Lemma trim_idempotent s : trim (trim s) = trim s.
Proof.
  unfold trim. destruct (trimStart s) as [|c r] eqn:Hstart; [reflexivity|].
  pose proof (trimStart_head s c r Hstart) as Hc.
  destruct (trimEnd_head c r Hc) as [r' Hend]. rewrite Hend.
  rewrite (trimStart_fixed c r' Hc), <- Hend. apply trimEnd_idempotent.
Qed.

(** X24. White space around the text in the search field does not matter:
    the query the handlers send neither begins nor ends with white space,
    and a field holding the trimmed text leads [handleSearch] and
    [handleInput] to the same requests as the field as typed. *)
Theorem outer_white_space_is_ignored value w :
  let query := trim value in
  let typed := on_elements (set_searchInput_value value) w in
  let trimmed := on_elements (set_searchInput_value query) w in
  (forall c r, query = String c r -> is_white_space c = false) /\
  (forall u c, query = u +:+ String c EmptyString -> is_white_space c = false) /\
  network (suspended (handleSearch typed)) = network (suspended (handleSearch trimmed)) /\
  network (suspended (handleInput typed)) = network (suspended (handleInput trimmed)).
Proof.
  cbn zeta. split; [|split; [|split]].
  - intros c r Hquery. unfold trim in Hquery.
    destruct (trimStart value) as [|a s] eqn:Hstart; [discriminate|].
    pose proof (trimStart_head value a s Hstart) as Ha.
    destruct (trimEnd_head a s Ha) as [r' Hend]. rewrite Hend in Hquery.
    injection Hquery as <- _. exact Ha.
  - intros u c Hquery. apply (trimEnd_last (trimStart value) u c). exact Hquery.
  - unfold handleSearch.
    replace (searchInput_value (elements (on_elements (set_searchInput_value value) w)))
      with value by (destruct w as [st [] bcl ls net con]; reflexivity).
    replace (searchInput_value (elements (on_elements (set_searchInput_value (trim value)) w)))
      with (trim value) by (destruct w as [st [] bcl ls net con]; reflexivity).
    rewrite trim_idempotent.
    destruct (truthy (trim value)).
    + rewrite !suspended_awaited, !fetchWeather_suspended.
      destruct w as [st [] bcl ls net con]. reflexivity.
    + destruct w as [st [] bcl ls net con]. reflexivity.
  - unfold handleInput.
    replace (searchInput_value (elements (on_elements (set_searchInput_value value) w)))
      with value by (destruct w as [st [] bcl ls net con]; reflexivity).
    replace (searchInput_value (elements (on_elements (set_searchInput_value (trim value)) w)))
      with (trim value) by (destruct w as [st [] bcl ls net con]; reflexivity).
    rewrite trim_idempotent.
    destruct (String.length (trim value) <? 2);
      destruct w as [st [] bcl ls net con]; reflexivity.
Qed.

End Trimming.

(** * The further properties at concrete inputs *)

Lemma fetch_success_renders_snapshot_witness :
  setItem_error (Host := Sample.host) (localStorage Sample.fresh) "lastLocation" "Paris" = None /\
  location_text
    (elements (resume (fetchWeather (host := Sample.host) "Paris" Sample.fresh)
                 Sample.success Sample.fresh))
  = loc_name (location Sample.paris) +:+ ", " +:+ loc_country (location Sample.paris).
Proof.
  assert (setItem_error (Host := Sample.host) (localStorage Sample.fresh) "lastLocation" "Paris"
          = None) as Hstored by reflexivity.
  split; [exact Hstored|].
  destruct (fetch_success_renders_snapshot (host := Sample.host)
              "Paris" Sample.fresh Sample.fresh Sample.paris Hstored) as (Hlabel & _).
  exact Hlabel.
Defined.

Lemma fetch_success_frame_witness :
  let before := set_localStorage (<["theme" := "dark"]> ∅) Sample.fresh in
  let after := resume (fetchWeather (host := Sample.host) "Paris" before) Sample.success before in
  setItem_error (Host := Sample.host) (localStorage before) "lastLocation" "Paris" = None /\
  "theme" <> "lastLocation" /\
  localStorage after !! "theme" = Some "dark".
Proof.
  cbn zeta.
  assert (setItem_error (Host := Sample.host)
            (localStorage (set_localStorage (<["theme" := "dark"]> ∅) Sample.fresh))
            "lastLocation" "Paris" = None) as Hstored by reflexivity.
  split; [exact Hstored|]. split; [discriminate|].
  destruct (fetch_success_frame (host := Sample.host) "Paris"
              (set_localStorage (<["theme" := "dark"]> ∅) Sample.fresh)
              (set_localStorage (<["theme" := "dark"]> ∅) Sample.fresh) Sample.paris Hstored)
    as (_ & Hkeys & _).
  etransitivity; [apply (Hkeys "theme"); discriminate | reflexivity].
Defined.

Lemma fetch_success_temperature_within_half_witness :
  setItem_error (Host := Sample.host) (localStorage Sample.fresh) "lastLocation" "Paris" = None /\
  exists n : Z,
    temperature
      (elements (resume (fetchWeather (host := Sample.host) "Paris" Sample.fresh)
                   Sample.success Sample.fresh))
    = number_to_string (Host := Sample.host) (inject_Z n).
Proof.
  assert (setItem_error (Host := Sample.host) (localStorage Sample.fresh) "lastLocation" "Paris"
          = None) as Hstored by reflexivity.
  split; [exact Hstored|].
  destruct (fetch_success_temperature_within_half (host := Sample.host)
              "Paris" Sample.fresh Sample.fresh Sample.paris Hstored) as (n & Htext & _).
  exists n. exact Htext.
Defined.

Lemma fetch_failure_text_never_empty_witness :
  (forall data, Sample.offline <> Resolved (ResponseOk (Json data))) /\
  conditionText
    (elements (resume (fetchWeather (host := Sample.host) "Lyon" Sample.fresh)
                 Sample.offline Sample.fresh))
  <> EmptyString.
Proof.
  assert (forall data, Sample.offline <> Resolved (ResponseOk (Json data))) as Hfail
    by (intros data; discriminate).
  split; [exact Hfail|].
  apply (fetch_failure_text_never_empty (host := Sample.host)
           "Lyon" Sample.fresh Sample.fresh Sample.offline Hfail).
Defined.

Lemma handleSearch_ignores_blank_witness :
  Forall (fun c => is_white_space c = true)
         (list_ascii_of_string (searchInput_value (elements (Sample.typed "   ")))) /\
  handleSearch (host := Sample.host) (Sample.typed "   ") = Done (Sample.typed "   ").
Proof.
  assert (Forall (fun c => is_white_space c = true)
            (list_ascii_of_string (searchInput_value (elements (Sample.typed "   ")))))
    as Hblank by (repeat constructor).
  split; [exact Hblank|].
  apply (handleSearch_ignores_blank (host := Sample.host) (Sample.typed "   ") Hblank).
Defined.

Lemma handleSearch_fetches_trimmed_then_clears_witness :
  trim (searchInput_value (elements (Sample.typed " Paris "))) <> EmptyString /\
  network (suspended (handleSearch (host := Sample.host) (Sample.typed " Paris ")))
  = (network (Sample.typed " Paris ") ++ [current_url "Paris"])%list.
Proof.
  assert (trim (searchInput_value (elements (Sample.typed " Paris "))) <> EmptyString)
    as Hquery by discriminate.
  split; [exact Hquery|].
  apply (handleSearch_fetches_trimmed_then_clears (host := Sample.host)
           (Sample.typed " Paris ") Hquery).
Defined.

Lemma handleSuggestionClick_clears_at_once_witness :
  ("suggestion-item" ∈ classList (item_node "Tokyo, Japan")) /\
  ("suggestion-item" ∉ classList Sample.container) /\
  searchInput_value
    (elements (suspended (handleSuggestionClick (host := Sample.host)
                            (item_node "Tokyo, Japan") (Sample.typed "Tok"))))
  = EmptyString /\
  handleSuggestionClick (host := Sample.host) Sample.container (Sample.typed "Tok")
  = Done (Sample.typed "Tok").
Proof.
  assert ("suggestion-item" ∈ classList (item_node "Tokyo, Japan")) as Hitem.
  { unfold item_node. cbn [classList]. apply elem_of_singleton_2. reflexivity. }
  assert ("suggestion-item" ∉ classList Sample.container) as Hlist.
  { unfold Sample.container. cbn [classList]. rewrite elem_of_singleton. discriminate. }
  split; [exact Hitem|]. split; [exact Hlist|]. split.
  - apply (handleSuggestionClick_clears_at_once (host := Sample.host)
             (item_node "Tokyo, Japan") (Sample.typed "Tok")). exact Hitem.
  - apply (handleSuggestionClick_clears_at_once (host := Sample.host)
             Sample.container (Sample.typed "Tok")). exact Hlist.
Defined.

Lemma switchUnit_inert_before_first_success_witness :
  (forall data, Sample.offline <> Resolved (ResponseOk (Json data))) /\
  switchUnit (host := Sample.host) Fahrenheit
    (run_to_end (initApp (host := Sample.host) (load Sample.page ∅ ∅)) Sample.offline)
  = run_to_end (initApp (host := Sample.host) (load Sample.page ∅ ∅)) Sample.offline.
Proof.
  assert (forall data, Sample.offline <> Resolved (ResponseOk (Json data))) as Hfail
    by (intros data; discriminate).
  split; [exact Hfail|].
  apply (switchUnit_inert_before_first_success (host := Sample.host)
           Sample.page ∅ ∅ Fahrenheit Sample.offline Hfail).
Defined.

Lemma switchUnit_round_trip_after_render_witness :
  setItem_error (Host := Sample.host) (localStorage Sample.fresh) "lastLocation" "Paris" = None /\
  Fahrenheit <> currentUnit (state Sample.fresh) /\
  switchUnit (host := Sample.host) (currentUnit (state Sample.fresh))
    (switchUnit (host := Sample.host) Fahrenheit
       (resume (fetchWeather (host := Sample.host) "Paris" Sample.fresh)
          Sample.success Sample.fresh))
  = resume (fetchWeather (host := Sample.host) "Paris" Sample.fresh)
      Sample.success Sample.fresh.
Proof.
  assert (setItem_error (Host := Sample.host) (localStorage Sample.fresh) "lastLocation" "Paris"
          = None) as Hstored by reflexivity.
  assert (Fahrenheit <> currentUnit (state Sample.fresh)) as Hunit by discriminate.
  split; [exact Hstored|]. split; [exact Hunit|].
  apply (switchUnit_round_trip_after_render (host := Sample.host)
           "Paris" Sample.fresh Sample.fresh Sample.paris Fahrenheit Hstored Hunit).
Defined.

Lemma stale_snapshot_survives_failed_fetch_witness :
  weatherData (state Sample.shown_paris) = Some Sample.paris /\
  (forall data, Sample.offline <> Resolved (ResponseOk (Json data))) /\
  currentUnit (state Sample.shown_paris) <> Fahrenheit /\
  weatherData
    (state (resume (fetchWeather (host := Sample.host) "Lyon" Sample.shown_paris)
              Sample.offline Sample.shown_paris))
  = Some Sample.paris.
Proof.
  assert (weatherData (state Sample.shown_paris) = Some Sample.paris) as Hdata
    by reflexivity.
  assert (forall data, Sample.offline <> Resolved (ResponseOk (Json data))) as Hfail
    by (intros data; discriminate).
  assert (currentUnit (state Sample.shown_paris) <> Fahrenheit) as Hunit by discriminate.
  split; [exact Hdata|]. split; [exact Hfail|]. split; [exact Hunit|].
  apply (stale_snapshot_survives_failed_fetch (host := Sample.host)
           "Lyon" Sample.shown_paris Sample.shown_paris Sample.paris Sample.offline
           Fahrenheit Hdata Hfail Hunit).
Defined.

Lemma rendered_suggestion_click_fetches_entry_witness :
  Forall (fun item => is_plain_text (sg_name item +:+ ", " +:+ sg_country item) = true)
         Sample.tokyo /\
  Sample.tokyo !! 0 = Some {| sg_name := "Tokyo"; sg_country := "Japan" |} /\
  0 < 5 /\
  exists nodes node,
    children_of
      (suggestions_innerHTML (elements (showSuggestions (Some Sample.tokyo) Sample.fresh)))
    = Some nodes /\
    nodes !! 0 = Some node /\
    textContent node = "Tokyo, Japan".
Proof.
  assert (Forall (fun item =>
                    is_plain_text (sg_name item +:+ ", " +:+ sg_country item) = true)
                 Sample.tokyo) as Hplain by (repeat constructor).
  assert (Sample.tokyo !! 0 = Some {| sg_name := "Tokyo"; sg_country := "Japan" |})
    as Hfirst by reflexivity.
  assert (0 < 5) as Hi by lia.
  split; [exact Hplain|]. split; [exact Hfirst|]. split; [exact Hi|].
  destruct (rendered_suggestion_click_fetches_entry (host := Sample.host)
              Sample.tokyo Sample.fresh 0 _ Hplain Hfirst Hi)
    as (nodes & node & Hnodes & _ & Hnode & Htext & _).
  exists nodes, node. split; [exact Hnodes|]. split; [exact Hnode | exact Htext].
Defined.



Lemma debounced_input_requests_last_value_witness :
  let rest := [(120, "To"); (260, "Tok")] in
  0 <= 0 /\
  Debounce.rapid input_delay 0 rest /\
  network (world (run_due 560 (input_events ((0, "T") :: rest) (page_of Sample.fresh 0 1))))
  = [search_url "Tok"].
Proof.
  cbn zeta.
  assert (Debounce.rapid input_delay 0 [(120, "To"); (260, "Tok")]) as Hrapid
    by (unfold input_delay; cbn; lia).
  split; [lia|]. split; [exact Hrapid|].
  destruct (debounced_input_requests_last_value Sample.fresh 0 1 0 "T"
              [(120, "To"); (260, "Tok")] (Nat.le_refl 0) Hrapid)
    as (_ & _ & Hdue).
  destruct (Hdue 560) as (_ & Hnetwork & _); [cbn; lia|].
  exact Hnetwork.
Defined.

Lemma request_query_is_escaped_witness :
  exists encoded,
    current_url "a&key=b"
    = "https://api.weatherapi.com/v1/current.json?key=44ab26d1da7d4804a1d30908251008&q="
      +:+ encoded /\
    In "%"%char (list_ascii_of_string encoded) /\
    ~ In "%"%char ["&"; "="; "#"; "?"; "/"; "+"; " "]%char.
Proof.
  destruct (request_query_is_escaped "a&key=b") as (encoded & Hurl & _ & Hchars).
  exists encoded. split; [exact Hurl|].
  assert (encoded = "a%26key%3Db") as Hencoded.
  { symmetry. eapply append_cancel. etransitivity; [|exact Hurl]. reflexivity. }
  assert (In "%"%char (list_ascii_of_string encoded)) as Hin
    by (rewrite Hencoded; cbn; tauto).
  split; [exact Hin|]. apply (Hchars "%"%char Hin).
Defined.

Lemma request_urls_distinguish_queries_witness :
  "Paris" <> "Paris, Texas" /\ current_url "Paris" <> current_url "Paris, Texas".
Proof.
  assert ("Paris" <> "Paris, Texas") as Hne by discriminate.
  split; [exact Hne|]. apply (request_urls_distinguish_queries "Paris" "Paris, Texas" Hne).
Defined.

Lemma later_success_overwrites_witness :
  (forall data, Sample.offline <> Resolved (ResponseOk (Json data))) /\
  setItem_error (Host := Sample.host) (localStorage Sample.fresh) "lastLocation" "Paris" = None /\
  setItem_error (Host := Sample.host) (localStorage Sample.fresh) "lastLocation" "Lyon" = None /\
  setItem_error (Host := Sample.host) (<["lastLocation" := "Lyon"]> (localStorage Sample.fresh))
    "lastLocation" "Paris" = None /\
  resume (fetchWeather (host := Sample.host) "Paris" Sample.fresh) Sample.success
    (resume (fetchWeather (host := Sample.host) "Lyon" Sample.fresh) Sample.success Sample.fresh)
  = resume (fetchWeather (host := Sample.host) "Paris" Sample.fresh) Sample.success Sample.fresh.
Proof.
  assert (forall data, Sample.offline <> Resolved (ResponseOk (Json data))) as Hfail
    by (intros data; discriminate).
  assert (setItem_error (Host := Sample.host) (localStorage Sample.fresh) "lastLocation" "Paris"
          = None) as Ha by reflexivity.
  assert (setItem_error (Host := Sample.host) (localStorage Sample.fresh) "lastLocation" "Lyon"
          = None) as Hb by reflexivity.
  assert (setItem_error (Host := Sample.host)
            (<["lastLocation" := "Lyon"]> (localStorage Sample.fresh)) "lastLocation" "Paris"
          = None) as Hab by reflexivity.
  split; [exact Hfail|]. split; [exact Ha|]. split; [exact Hb|]. split; [exact Hab|].
  apply (later_success_overwrites (host := Sample.host) "Paris" "Lyon"
           Sample.fresh Sample.fresh Sample.fresh Sample.paris Sample.paris
           Sample.offline Hfail Ha Hb Hab).
Defined.

Lemma handleInput_success_only_touches_list_witness :
  2 <= String.length (trim (searchInput_value (elements (Sample.typed "Tok")))) /\
  state (resume (handleInput (Sample.typed "Tok"))
           (Resolved (ResponseOk (Json (Some Sample.tokyo)))) Sample.shown_paris)
  = state Sample.shown_paris.
Proof.
  assert (2 <= String.length (trim (searchInput_value (elements (Sample.typed "Tok")))))
    as Hlong by (vm_compute; lia).
  split; [exact Hlong|].
  apply (handleInput_success_only_touches_list (Sample.typed "Tok") Sample.shown_paris
           (Some Sample.tokyo) Hlong).
Defined.

Lemma outer_white_space_is_ignored_witness :
  trim "  New York " = String "N" "ew York" /\
  is_white_space "N" = false /\
  network (suspended (handleSearch (host := Sample.host)
                        (on_elements (set_searchInput_value "  New York ") Sample.fresh)))
  = network (suspended (handleSearch (host := Sample.host)
                          (on_elements (set_searchInput_value (trim "  New York "))
                             Sample.fresh))).
Proof.
  assert (trim "  New York " = String "N" "ew York") as Hquery by reflexivity.
  destruct (outer_white_space_is_ignored (host := Sample.host) "  New York " Sample.fresh)
    as (Hhead & _ & Hsearch & _).
  split; [exact Hquery|]. split; [exact (Hhead "N"%char "ew York" Hquery) | exact Hsearch].
Defined.

Lemma fetch_success_storage_failure_witness :
  let e := Error "Failed to execute 'setItem' on 'Storage': Setting the value of 'lastLocation' exceeded the quota." in
  let w := resume (fetchWeather (host := Sample.full_host) "Paris" Sample.fresh)
             Sample.success Sample.fresh in
  setItem_error (Host := Sample.full_host) (localStorage Sample.fresh) "lastLocation" "Paris"
  = Some e /\
  lastLocation (state w) = "Paris" /\
  localStorage w !! "lastLocation" = None /\
  temperature (elements w) = "--" /\
  conditionText (elements w) = message e.
Proof.
  cbn zeta.
  assert (setItem_error (Host := Sample.full_host) (localStorage Sample.fresh)
            "lastLocation" "Paris"
          = Some (Error "Failed to execute 'setItem' on 'Storage': Setting the value of 'lastLocation' exceeded the quota."))
    as Hthrown by reflexivity.
  split; [exact Hthrown|].
  destruct (fetch_success_storage_failure (host := Sample.full_host)
              "Paris" Sample.fresh Sample.fresh Sample.paris _ Hthrown)
    as (Hstate & Hstorage & Htemperature & Htext & _).
  split; [exact (f_equal lastLocation Hstate)|].
  split; [exact (f_equal (fun storage => storage !! "lastLocation") Hstorage)|].
  split; [exact Htemperature | exact Htext].
Defined.
